(** * Captain Focus: the chat client's API wrapper and conversation controller

    A shallow embedding of
      - [src/services/omnidimensionApi.ts]  (class [OmnidimensionAPI]), and
      - [src/components/ChatInterface.tsx]  (the [ChatInterface] component:
        [detectMood], [speakText], [handleSendMessage], the voice settings),
    followed by the properties the specification states about them.

    Conventions.
      - A JavaScript string is a Rocq [string] holding its UTF-8 encoding.
        Every pattern the code searches for is ASCII, so searching bytes and
        searching UTF-16 code units agree.
      - A JavaScript number is a binary64 [float].
      - A function that may throw returns a [completion]; an [async] function
        is modelled by the completion its promise settles to, and a call that
        performs input or output also returns the list of [event]s it caused,
        in order.  Console output is not recorded. *)

From Stdlib Require Import String Ascii List ZArith NArith Bool Lia Floats DecimalString.
From stdpp Require Import base strings gmap.
Import ListNotations.

Open Scope string_scope.
Open Scope list_scope.
Set Warnings "-inexact-float,-register-all".

(* ===================================================================== *)
(** ** Strings: the built-ins the code calls *)
(* ===================================================================== *)

Module Str.

(** [s.length === 0], i.e. the string is falsy. *)
Definition is_empty (s : string) : bool :=
  match s with EmptyString => true | String _ _ => false end.

(** [pat] is read at the start of [s], characters compared with [eqc]. *)
Fixpoint starts_with (eqc : ascii -> ascii -> bool) (pat s : string) : bool :=
  match pat, s with
  | EmptyString, _ => true
  | String _ _, EmptyString => false
  | String p pat', String c s' => eqc p c && starts_with eqc pat' s'
  end.

(** Some alternative of [alts] is read at the start of [s]. *)
Definition alt_here (eqc : ascii -> ascii -> bool) (alts : list string) (s : string) : bool :=
  existsb (fun kw => starts_with eqc kw s) alts.

(** The search of an unanchored pattern [kw1|kw2|...]: try every start
    position from the left. *)
Fixpoint search (eqc : ascii -> ascii -> bool) (alts : list string) (s : string) : bool :=
  alt_here eqc alts s ||
  match s with
  | EmptyString => false
  | String _ s' => search eqc alts s'
  end.

(** [s.includes(pat)]. *)
Definition includes (s pat : string) : bool := search Ascii.eqb [pat] s.

(** Canonicalize of a case-insensitive pattern without the [u] flag: a
    character is compared through its upper case, and a character outside
    ASCII never canonicalizes to an ASCII one.  On UTF-8 bytes: [a]-[z] map
    to [A]-[Z], every other byte is kept. *)
Definition canonicalize (c : ascii) : ascii :=
  let n := N_of_ascii c in
  if (97 <=? n)%N && (n <=? 122)%N then ascii_of_N (n - 32) else c.

Definition eq_ignore_case (a b : ascii) : bool :=
  Ascii.eqb (canonicalize a) (canonicalize b).

(** [/kw1|kw2|.../i.test(s)] for literal keywords. *)
Definition regex_test_i (alts : list string) (s : string) : bool :=
  search eq_ignore_case alts s.

(** The code points [String.prototype.trim] removes (WhiteSpace and
    LineTerminator of ECMAScript), each as its UTF-8 bytes:
    one byte: TAB LF VT FF CR SP; two bytes: U+00A0 = C2 A0;
    three bytes: U+1680 = E1 9A 80, U+2000..U+200A = E2 80 80..8A,
    U+2028 U+2029 U+202F = E2 80 A8/A9/AF, U+205F = E2 81 9F,
    U+3000 = E3 80 80, U+FEFF = EF BB BF. *)
Definition ws1 (a : N) : bool :=
  ((9 <=? a) && (a <=? 13) || (a =? 32))%N.

Definition ws2 (a b : N) : bool :=
  ((a =? 194) && (b =? 160))%N.

Definition ws3 (a b c : N) : bool :=
  ((a =? 225) && (b =? 154) && (c =? 128)
   || (a =? 226) && (b =? 128) && ((128 <=? c) && (c <=? 138) || (c =? 168) || (c =? 169) || (c =? 175))
   || (a =? 226) && (b =? 129) && (c =? 159)
   || (a =? 227) && (b =? 128) && (c =? 128)
   || (a =? 239) && (b =? 187) && (c =? 191))%N.

(** [s.trimStart()]. *)
Fixpoint trimStart (s : string) : string :=
  match s with
  | EmptyString => EmptyString
  | String a s1 =>
      if ws1 (N_of_ascii a) then trimStart s1
      else match s1 with
           | EmptyString => s
           | String b s2 =>
               if ws2 (N_of_ascii a) (N_of_ascii b) then trimStart s2
               else match s2 with
                    | EmptyString => s
                    | String c s3 =>
                        if ws3 (N_of_ascii a) (N_of_ascii b) (N_of_ascii c)
                        then trimStart s3 else s
                    end
           end
  end.

Fixpoint rev_string (s : string) : string :=
  match s with
  | EmptyString => EmptyString
  | String a s' => rev_string s' +:+ String a EmptyString
  end.

(** The same scan from the end, on the reversed bytes. *)
Fixpoint trimStart_rev (r : string) : string :=
  match r with
  | EmptyString => EmptyString
  | String a r1 =>
      if ws1 (N_of_ascii a) then trimStart_rev r1
      else match r1 with
           | EmptyString => r
           | String b r2 =>
               if ws2 (N_of_ascii b) (N_of_ascii a) then trimStart_rev r2
               else match r2 with
                    | EmptyString => r
                    | String c r3 =>
                        if ws3 (N_of_ascii c) (N_of_ascii b) (N_of_ascii a)
                        then trimStart_rev r3 else r
                    end
           end
  end.

Definition trimEnd (s : string) : string :=
  rev_string (trimStart_rev (rev_string s)).

(** [s.trim()]. *)
Definition trim (s : string) : string := trimEnd (trimStart s).

(** Decimal rendering of an integer ([n.toString()] on an integral number). *)
Definition of_N (n : N) : string := NilEmpty.string_of_uint (N.to_uint n).
Definition of_Z (z : Z) : string := NilEmpty.string_of_int (Z.to_int z).

End Str.

(* ===================================================================== *)
(** ** Run-time values, errors and completions *)
(* ===================================================================== *)

(** What [JSON.parse] and [Response.json] can produce.  [JObj] lists an
    object's own properties in enumeration order (keys are distinct). *)
Inductive json : Type :=
| JNull
| JBool (b : bool)
| JNum (x : float)
| JStr (s : string)
| JArr (items : list json)
| JObj (props : list (string * json)).

(** The error classes that occur; each of them inherits from [Error]. *)
Inductive error_class : Type := PlainError | TypeError | SyntaxError | DOMException.

Record jserror : Type := mkError { err_class : error_class; err_message : string }.

(** [new Error(msg)] and [e instanceof C]. *)
Definition new_Error (msg : string) : jserror := mkError PlainError msg.

Definition instanceof_TypeError (e : jserror) : bool :=
  match err_class e with TypeError => true | _ => false end.

Definition instanceof_Error (e : jserror) : bool :=
  match err_class e with
  | PlainError | TypeError | SyntaxError | DOMException => true
  end.

(** A completion: normal with a value, or abrupt with the thrown error.  For
    an [async] function: the promise fulfils or rejects. *)
Inductive completion (A : Type) : Type :=
| Normal (a : A)
| Throw (e : jserror).
Arguments Normal {A} a.
Arguments Throw {A} e.

(** [Number::toString] (shortest decimal that reads back as the same
    double) is the engine's; the model takes it as given. *)
Class NumberHost : Type := { Number_toString : float -> string }.

Module Js.
Section Values.
Context `{NumberHost}.

(** ToBoolean. *)
Definition truthy (v : json) : bool :=
  match v with
  | JNull => false
  | JBool b => b
  | JNum x => negb (PrimFloat.eqb x 0 || PrimFloat.is_nan x)
  | JStr s => negb (Str.is_empty s)
  | JArr _ | JObj _ => true
  end.

(** ToBoolean of a property read, [None] standing for [undefined]. *)
Definition truthy_opt (v : option json) : bool :=
  match v with None => false | Some v => truthy v end.

(** The one TypeError ToString raises on a parsed JSON value, in V8's
    wording. *)
Definition cannot_convert : jserror :=
  mkError TypeError "Cannot convert object to primitive value".

(** The object has an own property of that name. *)
Fixpoint has_own (name : string) (props : list (string * json)) : bool :=
  match props with
  | [] => false
  | (k, _) :: rest => String.eqb k name || has_own name rest
  end.

(** The text ToString gives, [None] where the conversion throws.  A plain
    object renders as [[object Object]] through [Object.prototype.toString],
    unless it has an own [toString] property: a parsed value is never
    callable, [valueOf] gives back the object, and the conversion fails.  An
    array joins the texts of its elements with commas ([null] elements
    render empty), failing where an element fails. *)
Fixpoint primitive_text (v : json) : option string :=
  match v with
  | JNull => Some "null"
  | JBool true => Some "true"
  | JBool false => Some "false"
  | JNum x => Some (Number_toString x)
  | JStr s => Some s
  | JArr items =>
      let element (i : json) : option string :=
        match i with JNull => Some EmptyString | _ => primitive_text i end in
      (fix join (l : list json) : option string :=
         match l with
         | [] => Some EmptyString
         | [i] => element i
         | i :: rest =>
             match element i with
             | Some first =>
                 match join rest with
                 | Some others => Some (first +:+ "," +:+ others)
                 | None => None
                 end
             | None => None
             end
         end) items
  | JObj props => if has_own "toString" props then None else Some "[object Object]"
  end.

(** ToString, as a template literal applies it. *)
Definition ToString (v : json) : completion string :=
  match primitive_text v with
  | Some text => Normal text
  | None => Throw cannot_convert
  end.

(** Own property lookup in an object's property list. *)
Fixpoint lookup_prop (name : string) (props : list (string * json)) : option json :=
  match props with
  | [] => None
  | (k, v) :: rest => if String.eqb k name then Some v else lookup_prop name rest
  end.

(** The message of the TypeError for a property read on [null] or
    [undefined], in V8's wording.  Other engines word it differently
    ("errorData is null", "null is not an object ..."). *)
Definition cannot_read (base name : string) : jserror :=
  mkError TypeError ("Cannot read properties of " +:+ base +:+ " (reading '" +:+ name +:+ "')").

(** [v.name] for a parsed JSON value [v] and a name that no built-in
    prototype defines ([error], [response], [status]): a TypeError on [null],
    the own property of an object, [undefined] otherwise. *)
Definition get_prop (v : json) (name : string) : completion (option json) :=
  match v with
  | JNull => Throw (cannot_read "null" name)
  | JObj props => Normal (lookup_prop name props)
  | JBool _ | JNum _ | JStr _ | JArr _ => Normal None
  end.

(** [v.method(...)] for a method that only strings have ([substring],
    [replace]) and whose result the model does not compute: the string it
    was called on, or the TypeError of the call on another value. *)
Definition string_receiver (v : json) (expr method : string) : completion string :=
  match v with
  | JStr s => Normal s
  | JNull => Throw (cannot_read "null" method)
  | JBool _ | JNum _ | JArr _ | JObj _ =>
      Throw (mkError TypeError (expr +:+ "." +:+ method +:+ " is not a function"))
  end.

(** [a || b] where [a] is a property read. *)
Definition or_else (a : option json) (b : json) : json :=
  match a with
  | Some v => if truthy v then v else b
  | None => b
  end.

End Values.
End Js.

(* ===================================================================== *)
(** ** The browser: network, speech and the effect monads *)
(* ===================================================================== *)

Record Request : Type := mkRequest {
  req_url : string;
  req_method : string;
  req_headers : list (string * string);
  (** the value handed to [JSON.stringify] for the body, if any *)
  req_body : option json
}.

(** A [Response]: [res_json] is what [response.json()] settles to. *)
Record Response : Type := mkResponse {
  res_status : N;
  res_statusText : string;
  res_json : completion json
}.

(** [response.ok]: the status is in the range 200-299. *)
Definition res_ok (r : Response) : bool :=
  ((200 <=? res_status r) && (res_status r <=? 299))%N.

(** What [fetch] settles to: it rejects, or it fulfils with a response. *)
Definition Network : Type := Request -> completion Response.

Inductive event : Type :=
| Fetch (req : Request)
| SpeechCancel
| SpeechSpeak (text : string).

(** Effects and exceptions: the events caused so far and the completion. *)
Definition Eff (A : Type) : Type := (list event * completion A)%type.

Module Eff.

Definition ret {A} (a : A) : Eff A := ([], Normal a).

Definition throw {A} (e : jserror) : Eff A := ([], Throw e).

Definition bind {A B} (m : Eff A) (k : A -> Eff B) : Eff B :=
  match m with
  | (t, Normal a) => let (t', r) := k a in (t ++ t', r)
  | (t, Throw e) => (t, Throw e)
  end.

(** [try { m } catch (e) { handler e }]. *)
Definition try_catch {A} (m : Eff A) (handler : jserror -> Eff A) : Eff A :=
  match m with
  | (t, Normal a) => (t, Normal a)
  | (t, Throw e) => let (t', r) := handler e in (t ++ t', r)
  end.

(** A synchronous computation that touches nothing outside. *)
Definition pure {A} (c : completion A) : Eff A := ([], c).

(** [await fetch(req)]. *)
Definition fetch (net : Network) (req : Request) : Eff Response := ([Fetch req], net req).

End Eff.

Declare Scope eff_scope.
Delimit Scope eff_scope with eff.
Notation "x <- m ;; k" := (Eff.bind m (fun x => k))
  (at level 100, m at next level, right associativity) : eff_scope.

(* ===================================================================== *)
(** ** services/omnidimensionApi.ts *)
(* ===================================================================== *)

Module Api.

(** [ChatMessage]: [role: 'system' | 'user' | 'assistant']. *)
Inductive Role : Type := system | user | assistant.

(** [content] is declared a string; the value is kept as stored, since the
    controller passes stored message texts on unchecked. *)
Record ChatMessage : Type := mkChatMessage { role : Role; content : json }.

Definition is_user (r : Role) : bool :=
  match r with user => true | system | assistant => false end.

(** What the constructor reads: [window] ([None] when [typeof window] is
    ['undefined']) with its [location], and [import.meta.env.VITE_BACKEND_URL]
    ([None] when the variable is not defined). *)
Record Location : Type := mkLocation { hostname : string; protocol : string }.

Record Environment : Type := mkEnvironment {
  window : option Location;
  VITE_BACKEND_URL : option string
}.

(** The class instance: its one private field. *)
Record OmnidimensionAPI : Type := mkApi { backendUrl : string }.

(** [import.meta.env.X || dflt]: an undefined or empty value is falsy. *)
Definition env_or (x : option string) (dflt : string) : string :=
  match x with
  | Some s => if Str.is_empty s then dflt else s
  | None => dflt
  end.

Definition constructor (env : Environment) : OmnidimensionAPI :=
  match window env with
  | Some location =>
      if String.eqb (hostname location) "localhost" || String.eqb (hostname location) "127.0.0.1"
      then mkApi "http://localhost:3001"
      else mkApi (env_or (VITE_BACKEND_URL env)
                         (protocol location +:+ "//captain-focus-backend.onrender.com"))
  | None => mkApi (env_or (VITE_BACKEND_URL env) "http://localhost:3001")
  end.

Definition getBackendUrl (self : OmnidimensionAPI) : string := backendUrl self.

Definition setBackendUrl (self : OmnidimensionAPI) (url : string) : OmnidimensionAPI :=
  mkApi url.

Definition getSystemPrompt (self : OmnidimensionAPI) : string :=
  "You are Captain Focus, a friendly AI study companion. Help students learn with enthusiasm and encouragement!".

Definition json_headers : list (string * string) := [("Content-Type", "application/json")].

(** The request [sendMessage] builds for a message text. *)
Definition chat_request (self : OmnidimensionAPI) (latestContent : json) : Request :=
  mkRequest (backendUrl self +:+ "/api/chat") "POST" json_headers
            (Some (JObj [("message", latestContent)])).

Definition health_request (self : OmnidimensionAPI) : Request :=
  mkRequest (backendUrl self +:+ "/api/health") "GET" json_headers None.

(** [m.role] where [m = messages[messages.length - 1]], which is
    [undefined] for the empty array. *)
Definition read_latest {A} (m : option ChatMessage) (name : string) (field : ChatMessage -> A)
  : completion A :=
  match m with
  | Some m => Normal (field m)
  | None => Throw (Js.cannot_read "undefined" name)
  end.

Definition not_found_message : string :=
  "Backend service not found. Please check if the server is running.".
Definition cannot_connect_message : string :=
  "Cannot connect to backend server. Please ensure the backend service is running.".
Definition invalid_response_message : string :=
  "Invalid response from backend: missing response text".
Definition latest_not_user_message : string :=
  "Latest message must be from user".

Section Methods.
Context `{NumberHost}.
Variable net : Network.
Variable self : OmnidimensionAPI.

Local Open Scope eff_scope.

(** The body of the [try] block of [sendMessage]. *)
Definition sendMessage_try (messages : list ChatMessage) : Eff json :=
  let latestMessage := last messages in
  r <- Eff.pure (read_latest latestMessage "role" role) ;;
  if negb (is_user r) then Eff.throw (new_Error latest_not_user_message) else
  latestContent <- Eff.pure (read_latest latestMessage "content" content) ;;
  (* the log line evaluates latestMessage.content.substring(0, 50) *)
  _ <- Eff.pure (Js.string_receiver latestContent "latestMessage.content" "substring") ;;
  response <- Eff.fetch net (chat_request self latestContent) ;;
  if negb (res_ok response) then
    errorData <- Eff.try_catch (Eff.pure (res_json response)) (fun _ => Eff.ret (JObj [])) ;;
    error_prop <- Eff.pure (Js.get_prop errorData "error") ;;
    let errorMessage :=
      Js.or_else error_prop
        (JStr ("HTTP " +:+ Str.of_N (res_status response) +:+ ": " +:+ res_statusText response)) in
    if (res_status response =? 404)%N then
      Eff.throw (new_Error not_found_message)
    else if (res_status response =? 500)%N then
      rendered <- Eff.pure (Js.ToString errorMessage) ;;
      Eff.throw (new_Error ("Server error: " +:+ rendered))
    else
      rendered <- Eff.pure (Js.ToString errorMessage) ;;
      Eff.throw (new_Error ("Backend request failed: " +:+ rendered))
  else
    data <- Eff.pure (res_json response) ;;
    response_prop <- Eff.pure (Js.get_prop data "response") ;;
    match response_prop with
    | Some text => if Js.truthy text then Eff.ret text
                   else Eff.throw (new_Error invalid_response_message)
    | None => Eff.throw (new_Error invalid_response_message)
    end.

(** The [catch] block of [sendMessage]. *)
Definition sendMessage_catch (error : jserror) : Eff json :=
  if instanceof_TypeError error && Str.includes (err_message error) "fetch"
  then Eff.throw (new_Error cannot_connect_message)
  else Eff.throw error.

Definition sendMessage (messages : list ChatMessage) : Eff json :=
  Eff.try_catch (sendMessage_try messages) sendMessage_catch.

(** [checkHealth]: [JNull] is the [null] it returns. *)
Definition checkHealth : Eff json :=
  Eff.try_catch
    (response <- Eff.fetch net (health_request self) ;;
     if negb (res_ok response) then Eff.ret JNull else
     healthData <- Eff.pure (res_json response) ;;
     (* the log line reads healthData.status *)
     _ <- Eff.pure (Js.get_prop healthData "status") ;;
     Eff.ret healthData)
    (fun _ => Eff.ret JNull).

End Methods.

End Api.

(* ===================================================================== *)
(** ** components/ChatInterface.tsx: the conversation controller *)
(* ===================================================================== *)

Module Chat.

Inductive Sender : Type := user | captain.

Inductive Mood : Type := tired | confused | happy | neutral.

(** [Message].  [text] holds whatever value the code stores: the reply of
    the backend is stored as received, the [string] annotation is not
    checked at run time.  [timestamp] and the number behind [id] are
    milliseconds. *)
Record Message : Type := mkMessage {
  id : string;
  text : json;
  sender : Sender;
  mood : option Mood;
  timestamp : Z
}.

(** The component state [handleSendMessage] and [speakText] touch. *)
Record ChatState : Type := mkChatState {
  messages : list Message;
  inputText : string;
  isTyping : bool;
  isSpeaking : bool;
  apiError : option string
}.

(** The places where the send handler reads the clock. *)
Inductive clock_site : Type :=
| UserId | UserDate | ReplyId | ReplyDate | FallbackId | FallbackDate.

(** The browser around one run of the handler: the network, whether
    ['speechSynthesis' in window], and the clock reading at each site. *)
Record Browser : Type := mkBrowser {
  network : Network;
  speechSynthesis : bool;
  Date_now : clock_site -> Z
}.

(** Whether the component stays mounted in that browser.  The effect that
    loads the voices runs at mount and evaluates
    [speechSynthesis.getVoices()] without a guard (line 101): where
    ['speechSynthesis' in window] is false the name does not resolve, the
    effect throws, and with no error boundary around the component React
    unmounts it, so that none of its handlers ever runs there. *)
Definition mounts (browser : Browser) : bool := speechSynthesis browser.

(** State, events and exceptions.  A state update made before a throw
    stays. *)
Definition Act (A : Type) : Type := ChatState -> ChatState * list event * completion A.

Definition ret {A} (a : A) : Act A := fun st => (st, [], Normal a).

Definition bind {A B} (m : Act A) (k : A -> Act B) : Act B :=
  fun st =>
    match m st with
    | (st1, t1, Normal a) =>
        match k a st1 with (st2, t2, r) => (st2, t1 ++ t2, r) end
    | (st1, t1, Throw e) => (st1, t1, Throw e)
    end.

Definition try_catch {A} (m : Act A) (handler : jserror -> Act A) : Act A :=
  fun st =>
    match m st with
    | (st1, t1, Normal a) => (st1, t1, Normal a)
    | (st1, t1, Throw e) =>
        match handler e st1 with (st2, t2, r) => (st2, t1 ++ t2, r) end
    end.

Definition get : Act ChatState := fun st => (st, [], Normal st).

Definition modify (f : ChatState -> ChatState) : Act unit := fun st => (f st, [], Normal tt).

Definition emit (ev : event) : Act unit := fun st => (st, [ev], Normal tt).

Definition pure {A} (c : completion A) : Act A := fun st => (st, [], c).

(** [await] of an API call. *)
Definition lift {A} (m : Eff A) : Act A := fun st => (st, fst m, snd m).

Declare Scope act_scope.
Delimit Scope act_scope with act.
Notation "x <- m ;; k" := (bind m (fun x => k))
  (at level 100, m at next level, right associativity) : act_scope.
Notation "m ;;; k" := (bind m (fun _ => k))
  (at level 100, right associativity) : act_scope.

(** The state setters; [setMessages] takes the updater function. *)
Definition setMessages (f : list Message -> list Message) : Act unit :=
  modify (fun st => mkChatState (f (messages st)) (inputText st) (isTyping st) (isSpeaking st) (apiError st)).
Definition setInputText (s : string) : Act unit :=
  modify (fun st => mkChatState (messages st) s (isTyping st) (isSpeaking st) (apiError st)).
Definition setIsTyping (b : bool) : Act unit :=
  modify (fun st => mkChatState (messages st) (inputText st) b (isSpeaking st) (apiError st)).
Definition setIsSpeaking (b : bool) : Act unit :=
  modify (fun st => mkChatState (messages st) (inputText st) (isTyping st) b (apiError st)).
Definition setApiError (e : option string) : Act unit :=
  modify (fun st => mkChatState (messages st) (inputText st) (isTyping st) (isSpeaking st) e).

(** The three patterns of [detectMood], each a list of alternatives. *)
Definition tired_words : list string :=
  ["tired"; "exhausted"; "sleepy"; "bored"; "overwhelmed"].
Definition confused_words : list string :=
  ["confused"; "don't understand"; "help"; "stuck"; "hard"; "difficult"].
Definition happy_words : list string :=
  ["great"; "awesome"; "got it"; "understand"; "thanks"; "good"].

Definition detectMood (s : string) : Mood :=
  let is_tired := Str.regex_test_i tired_words s in
  let is_confused := Str.regex_test_i confused_words s in
  let is_happy := Str.regex_test_i happy_words s in
  if is_tired then tired
  else if is_confused then confused
  else if is_happy then happy
  else neutral.

Definition fallbackResponse : string :=
  "🤖 I'm having trouble connecting to my AI brain right now, but I'm still here to help! This might be due to API configuration issues. Please check the backend logs and ensure your Omnidimension API key is properly set. ⚡".

Section Handlers.
Context `{NumberHost}.
Variable browser : Browser.
Variable omnidimensionAPI : Api.OmnidimensionAPI.

Local Open Scope act_scope.

(** [speakText].  [SpeechSpeak s] records that an utterance made from [s]
    was handed to [speechSynthesis.speak]; the utterance carries [s] without
    the emoji of the pattern, and the voice, rate and pitch of the voice
    settings, none of which is tracked here. *)
Definition speakText (v : json) : Act unit :=
  if speechSynthesis browser then
    emit SpeechCancel ;;;
    setIsSpeaking true ;;;
    s <- pure (Js.string_receiver v "text" "replace") ;;
    emit (SpeechSpeak s)
  else ret tt.

Definition history_entry (msg : Message) : Api.ChatMessage :=
  Api.mkChatMessage
    (match sender msg with user => Api.user | captain => Api.assistant end)
    (text msg).

(** The message objects the handler builds: [userMessage], and the two
    [captainMessage]s of the [try] and of the [catch] block. *)
Definition userMessage (input : string) : Message :=
  mkMessage (Str.of_Z (Date_now browser UserId)) (JStr input) user None
            (Date_now browser UserDate).

Definition replyMessage (responseText : json) (detected : Mood) : Message :=
  mkMessage (Str.of_Z (Date_now browser ReplyId + 1)) responseText captain (Some detected)
            (Date_now browser ReplyDate).

Definition fallbackMessage : Message :=
  mkMessage (Str.of_Z (Date_now browser FallbackId + 1)) (JStr fallbackResponse) captain
            (Some neutral) (Date_now browser FallbackDate).

(** [apiMessages]: the system prompt, the rendered history, the input. *)
Definition apiMessages (rendered : list Message) (currentInput : string) : list Api.ChatMessage :=
  let conversationHistory := map history_entry rendered in
  [Api.mkChatMessage Api.system (JStr (Api.getSystemPrompt omnidimensionAPI))]
    ++ conversationHistory
    ++ [Api.mkChatMessage Api.user (JStr currentInput)].

(** [handleSendMessage]: [messages] and [inputText] are those of the render
    the handler was created in, taken here to be the current state; the
    updaters run on the state current when they are called. *)
Definition handleSendMessage : Act unit :=
  rendered <- get ;;
  if Str.is_empty (Str.trim (inputText rendered)) then ret tt else
  setMessages (fun prev => prev ++ [userMessage (inputText rendered)]) ;;;
  let currentInput := inputText rendered in
  setInputText EmptyString ;;;
  setIsTyping true ;;;
  setApiError None ;;;
  try_catch
    (responseText <-
       lift (Api.sendMessage (network browser) omnidimensionAPI
                             (apiMessages (messages rendered) currentInput)) ;;
     let detected := detectMood currentInput in
     setMessages (fun prev => prev ++ [replyMessage responseText detected]) ;;;
     setIsTyping false ;;;
     speakText responseText)
    (fun error =>
     setApiError (Some (if instanceof_Error error then err_message error
                        else "Failed to get response from AI")) ;;;
     setMessages (fun prev => prev ++ [fallbackMessage]) ;;;
     setIsTyping false ;;;
     speakText (JStr fallbackResponse)).

End Handlers.

End Chat.

(* ===================================================================== *)
(** ** components/ChatInterface.tsx: the voice settings and their storage *)
(* ===================================================================== *)

Module Voice.

Record VoiceSettings : Type := mkVoiceSettings {
  selectedVoice : float;
  pitch : float;
  rate : float
}.

(** The literal of the [useState] initialiser and of the reset button. *)
Definition defaultVoiceSettings : VoiceSettings := mkVoiceSettings 0 1.1 0.9.

Definition storageKey : string := "captainFocusVoiceSettings".

(** [JSON.stringify] and [JSON.parse] at the type the code uses them at
    ([useState<VoiceSettings>]); [JSON.parse] throws on malformed text. *)
Class SettingsJSON : Type := {
  JSON_stringify : VoiceSettings -> string;
  JSON_parse : string -> completion VoiceSettings
}.

(** The component's [voiceSettings] state next to the browser's
    [localStorage]. *)
Record Store : Type := mkStore {
  voiceSettings : VoiceSettings;
  localStorage : gmap string string
}.

Inductive Action : Type :=
| SelectVoice (value : float)          (* parseInt(e.target.value) *)
| ChangePitch (value : float)          (* parseFloat(e.target.value) *)
| ChangeRate (value : float)
| ResetToDefaults
| VoicesChanged (voices : list string) (* the names speechSynthesis.getVoices() lists *).

Definition of_nat (n : nat) : float := PrimFloat.of_uint63 (Uint63.of_Z (Z.of_nat n)).

(** [name.toLowerCase().includes(pat)] for the four patterns used below.
    Outside ASCII only U+0130 and U+212A lower-case to text with an ASCII
    letter ([i] followed by U+0307, and [k]); no pattern has a [k] or ends
    in [i], so comparing bytes with ASCII case folded gives the same
    answer. *)
Definition lower_includes (name pat : string) : bool :=
  Str.search Str.eq_ignore_case [pat] name.

Definition is_female_voice (name : string) : bool :=
  lower_includes name "female" || lower_includes name "woman"
  || lower_includes name "zira" || lower_includes name "samantha".

(** [voices.findIndex(p)], [None] standing for -1. *)
Fixpoint findIndex (p : string -> bool) (voices : list string) : option nat :=
  match voices with
  | [] => None
  | v :: rest => if p v then Some 0 else option_map S (findIndex p rest)
  end.

Section Persistence.
Context `{SettingsJSON}.

(** The lazy initialiser of [useState<VoiceSettings>]: [getItem] gives
    [null] for a key that is absent. *)
Definition initialVoiceSettings (storage : gmap string string) : completion VoiceSettings :=
  let saved := storage !! storageKey in
  match saved with
  | Some text => if Str.is_empty text then Normal defaultVoiceSettings else JSON_parse text
  | None => Normal defaultVoiceSettings
  end.

(** The effect with dependency [[voiceSettings]]. *)
Definition saveEffect (st : Store) : Store :=
  mkStore (voiceSettings st)
          (<[storageKey := JSON_stringify (voiceSettings st)]> (localStorage st)).

(** [setVoiceSettings(updater)] and the effects of the render it causes. *)
Definition setVoiceSettings (updater : VoiceSettings -> VoiceSettings) (st : Store) : Store :=
  saveEffect (mkStore (updater (voiceSettings st)) (localStorage st)).

(** First render: initialise the state, then run the effect. *)
Definition mount (storage : gmap string string) : completion Store :=
  match initialVoiceSettings storage with
  | Normal vs => Normal (saveEffect (mkStore vs storage))
  | Throw e => Throw e
  end.

(** [loadVoices], as far as the settings are concerned. *)
Definition loadVoices (voices : list string) (st : Store) : Store :=
  let sel := selectedVoice (voiceSettings st) in
  let len := of_nat (length voices) in
  if PrimFloat.ltb 0 len && (PrimFloat.leb len sel || PrimFloat.ltb sel 0) then
    let femaleVoice := findIndex is_female_voice voices in
    setVoiceSettings
      (fun prev =>
         mkVoiceSettings (match femaleVoice with Some i => of_nat i | None => 0%float end)
                         (pitch prev) (rate prev))
      st
  else st.

Definition dispatch (a : Action) (st : Store) : Store :=
  match a with
  | SelectVoice value =>
      setVoiceSettings (fun prev => mkVoiceSettings value (pitch prev) (rate prev)) st
  | ChangePitch value =>
      setVoiceSettings (fun prev => mkVoiceSettings (selectedVoice prev) value (rate prev)) st
  | ChangeRate value =>
      setVoiceSettings (fun prev => mkVoiceSettings (selectedVoice prev) (pitch prev) value) st
  | ResetToDefaults =>
      setVoiceSettings (fun _ => defaultVoiceSettings) st
  | VoicesChanged voices => loadVoices voices st
  end.

(** A sequence of user actions and voice-list events, oldest first. *)
Definition run (actions : list Action) (st : Store) : Store :=
  fold_left (fun st a => dispatch a st) actions st.

(** The stored text is the serialisation of the current settings. *)
Definition persisted (st : Store) : Prop :=
  localStorage st !! storageKey = Some (JSON_stringify (voiceSettings st)).

End Persistence.

End Voice.

(* ===================================================================== *)
(** ** The vocabulary of the specification *)
(* ===================================================================== *)

Module Spec.

(** A text with its letters [a]-[z] in upper case. *)
Fixpoint fold_case (s : string) : string :=
  match s with
  | EmptyString => EmptyString
  | String c s' => String (Str.canonicalize c) (fold_case s')
  end.

(** The keyword occurs somewhere in the text, letter case ignored. *)
Definition occurs_ignoring_case (kw s : string) : Prop :=
  exists pre mid post, s = pre +:+ mid +:+ post /\ fold_case mid = fold_case kw.

(** The text matches one of the keywords. *)
Definition mentions (words : list string) (s : string) : Prop :=
  exists kw, In kw words /\ occurs_ignoring_case kw s.

(** The label the specification gives a text: the first of tired, confused,
    happy whose keywords the text matches, neutral when none does. *)
Definition mood_of (s : string) (m : Chat.Mood) : Prop :=
  match m with
  | Chat.tired => mentions Chat.tired_words s
  | Chat.confused => ~ mentions Chat.tired_words s /\ mentions Chat.confused_words s
  | Chat.happy =>
      ~ mentions Chat.tired_words s /\ ~ mentions Chat.confused_words s
      /\ mentions Chat.happy_words s
  | Chat.neutral =>
      ~ mentions Chat.tired_words s /\ ~ mentions Chat.confused_words s
      /\ ~ mentions Chat.happy_words s
  end.

Definition bytes (l : list N) : string := string_of_list_ascii (map ascii_of_N l).

(** The white space and line terminator code points of ECMAScript, in
    UTF-8: U+0009..U+000D, U+0020, U+00A0, U+1680, U+2000..U+200A, U+2028,
    U+2029, U+202F, U+205F, U+3000, U+FEFF. *)
Definition white_space : list string :=
  map bytes
    [ [9]; [10]; [11]; [12]; [13]; [32]; [194; 160]; [225; 154; 128];
      [226; 128; 128]; [226; 128; 129]; [226; 128; 130]; [226; 128; 131];
      [226; 128; 132]; [226; 128; 133]; [226; 128; 134]; [226; 128; 135];
      [226; 128; 136]; [226; 128; 137]; [226; 128; 138];
      [226; 128; 168]; [226; 128; 169]; [226; 128; 175]; [226; 129; 159];
      [227; 128; 128]; [239; 187; 191] ]%N.

(** The text is empty or consists only of white space. *)
Inductive blank : string -> Prop :=
| blank_empty : blank EmptyString
| blank_space : forall w s, In w white_space -> blank s -> blank (w +:+ s).

Section ErrorTranslation.
Context `{NumberHost}.

(** The [name] field of a reply body, absent on anything but an object. *)
Definition field (name : string) (body : json) : option json :=
  match body with
  | JObj props => Js.lookup_prop name props
  | JNull | JBool _ | JNum _ | JStr _ | JArr _ => None
  end.

(** The value the code puts into the message of a failed request: the
    [error] field of the reply body when the body is JSON with a truthy
    one, the text [HTTP <status>: <statusText>] otherwise. *)
Definition detail_value (r : Response) : json :=
  let fallback := JStr ("HTTP " +:+ Str.of_N (res_status r) +:+ ": " +:+ res_statusText r) in
  match res_json r with
  | Normal body => Js.or_else (field "error" body) fallback
  | Throw _ => fallback
  end.

(** The detail as text, [None] when the value has no text (an object with
    an own [toString] property, or an array holding one). *)
Definition detail (r : Response) : option string := Js.primitive_text (detail_value r).

(** The error a response that is not ok ends in: the fixed one for 404;
    for any other status the one with the detail after its prefix, or,
    where the detail has no text, the TypeError of the conversion. *)
Definition status_error (r : Response) : jserror :=
  if (res_status r =? 404)%N then new_Error Api.not_found_message
  else match detail r with
       | Some text =>
           new_Error ((if (res_status r =? 500)%N then "Server error: "
                       else "Backend request failed: ") +:+ text)
       | None => Js.cannot_convert
       end.

End ErrorTranslation.

Definition production_default (location : Api.Location) : string :=
  Api.protocol location +:+ "//captain-focus-backend.onrender.com".

(** The backend URL as the specification words it, "if set" read as "if
    the variable is defined". *)
Definition stated_backend_url (env : Api.Environment) : string :=
  match Api.window env with
  | Some location =>
      if String.eqb (Api.hostname location) "localhost"
         || String.eqb (Api.hostname location) "127.0.0.1"
      then "http://localhost:3001"
      else match Api.VITE_BACKEND_URL env with
           | Some url => url
           | None => production_default location
           end
  | None =>
      match Api.VITE_BACKEND_URL env with
      | Some url => url
      | None => "http://localhost:3001"
      end
  end.

(** The variable is set to a text that is not empty. *)
Definition configured (env : Api.Environment) (url : string) : Prop :=
  Api.VITE_BACKEND_URL env = Some url /\ url <> EmptyString.

(** The variable is not defined, or defined and empty. *)
Definition unconfigured (env : Api.Environment) : Prop :=
  Api.VITE_BACKEND_URL env = None \/ Api.VITE_BACKEND_URL env = Some EmptyString.

Definition local_host (location : Api.Location) : Prop :=
  Api.hostname location = "localhost" \/ Api.hostname location = "127.0.0.1".

End Spec.

(* ===================================================================== *)
(** ** Concrete inputs for the examples *)
(* ===================================================================== *)

Module Sample.

(** A stand-in for the engine's number rendering; the examples render no
    number. *)
Definition host : NumberHost := {| Number_toString := fun _ => "NaN" |}.

(** A stand-in serialisation that keeps the pitch apart from the default:
    enough to run the storage examples. *)
Definition codec : Voice.SettingsJSON :=
  {| Voice.JSON_stringify :=
       fun vs => if PrimFloat.eqb (Voice.pitch vs) 1.1 then "default-pitch" else "other-pitch";
     Voice.JSON_parse := fun _ => Normal (Voice.mkVoiceSettings 0 1.5 1) |}.

Definition api : Api.OmnidimensionAPI := Api.mkApi "http://localhost:3001".

Definition greeting_and_question : list Api.ChatMessage :=
  [Api.mkChatMessage Api.system (JStr (Api.getSystemPrompt api));
   Api.mkChatMessage Api.assistant (JStr "Greetings, brave scholar!");
   Api.mkChatMessage Api.user (JStr "What is a monad?")].

Definition question_then_answer : list Api.ChatMessage :=
  [Api.mkChatMessage Api.user (JStr "What is a monad?");
   Api.mkChatMessage Api.assistant (JStr "A monoid in the category of endofunctors.")].

(** The backend answers 200 with a reply text. *)
Definition reply_great : Response :=
  mkResponse 200 "OK" (Normal (JObj [("response", JStr "Great question!"); ("status", JStr "success")])).
Definition net_great : Network := fun _ => Normal reply_great.

(** A 404 whose body is the JSON text [null]. *)
Definition reply_404_null : Response := mkResponse 404 "Not Found" (Normal JNull).
Definition net_404_null : Network := fun _ => Normal reply_404_null.

(** A 500 with an error text. *)
Definition reply_500 : Response :=
  mkResponse 500 "Internal Server Error" (Normal (JObj [("error", JStr "boom")])).
Definition net_500 : Network := fun _ => Normal reply_500.

(** A 500 whose [error] is an object with a [toString] key of its own. *)
Definition reply_500_object : Response :=
  mkResponse 500 "Internal Server Error"
             (Normal (JObj [("error", JObj [("toString", JStr "boom")])])).
Definition net_500_object : Network := fun _ => Normal reply_500_object.

(** The server cannot be reached. *)
Definition net_down : Network := fun _ => Throw (mkError TypeError "Failed to fetch").

Definition clock : Chat.clock_site -> Z := fun _ => 1700000000000%Z.

Definition browser_great : Chat.Browser := Chat.mkBrowser net_great true clock.
Definition browser_down : Chat.Browser := Chat.mkBrowser net_down true clock.

Definition greeting : Chat.Message :=
  Chat.mkMessage "1" (JStr "Greetings, brave scholar!") Chat.captain (Some Chat.happy) 0.

Definition typed (input : string) : Chat.ChatState :=
  Chat.mkChatState [greeting] input false false None.

(** A production page with the variable defined and empty. *)
Definition env_empty_variable : Api.Environment :=
  Api.mkEnvironment (Some (Api.mkLocation "captain-focus.example" "https:")) (Some EmptyString).

Definition env_configured : Api.Environment :=
  Api.mkEnvironment (Some (Api.mkLocation "captain-focus.example" "https:"))
                    (Some "https://api.example").

(** A space followed by a no-break space (U+00A0). *)
Definition blank_input : string := " " +:+ Spec.bytes [194; 160]%N +:+ EmptyString.

End Sample.


(* ===================================================================== *)
(** ** Facts about the string built-ins *)
(* ===================================================================== *)

(* ===================================================================== *)
(** ** components/ChatInterface.tsx: connection check, keyboard, send button *)
(* ===================================================================== *)

Module Connection.

(** [connectionStatus: 'connecting' | 'connected' | 'error']. *)
Inductive ConnectionStatus : Type := connecting | connected | error.

(** The component state [checkConnection] touches. *)
Record State : Type := mkState {
  connectionStatus : ConnectionStatus;
  apiError : option string
}.

Definition key_missing_message : string :=
  "Omnidimension API key not configured. Please set VITE_OMNIDIMENSION_API_KEY environment variable in your backend .env file.".
Definition not_responding_message : string :=
  "Omnidimension API is not responding. Please check your API key and network connection.".
Definition health_failed_message : string :=
  "Backend health check failed. Please ensure the backend service is running and accessible.".
Definition cannot_connect_message : string :=
  "Cannot connect to backend server. Please ensure the backend service is running.".

(** State, events and exceptions, on the connection state. *)
Definition Act (A : Type) : Type := State -> State * list event * completion A.

Definition ret {A} (a : A) : Act A := fun st => (st, [], Normal a).

Definition bind {A B} (m : Act A) (k : A -> Act B) : Act B :=
  fun st =>
    match m st with
    | (st1, t1, Normal a) =>
        match k a st1 with (st2, t2, r) => (st2, t1 ++ t2, r) end
    | (st1, t1, Throw e) => (st1, t1, Throw e)
    end.

Definition try_catch {A} (m : Act A) (handler : jserror -> Act A) : Act A :=
  fun st =>
    match m st with
    | (st1, t1, Normal a) => (st1, t1, Normal a)
    | (st1, t1, Throw e) =>
        match handler e st1 with (st2, t2, r) => (st2, t1 ++ t2, r) end
    end.

Definition pure {A} (c : completion A) : Act A := fun st => (st, [], c).

Definition lift {A} (m : Eff A) : Act A := fun st => (st, fst m, snd m).

Definition setConnectionStatus (c : ConnectionStatus) : Act unit :=
  fun st => (mkState c (apiError st), [], Normal tt).

Definition setApiError (e : option string) : Act unit :=
  fun st => (mkState (connectionStatus st) e, [], Normal tt).

Declare Scope conn_scope.
Delimit Scope conn_scope with conn.
Notation "x <- m ;; k" := (bind m (fun x => k))
  (at level 100, m at next level, right associativity) : conn_scope.
Notation "m ;;; k" := (bind m (fun _ => k))
  (at level 100, right associativity) : conn_scope.

Section Mount.
Variable net : Network.
Variable omnidimensionAPI : Api.OmnidimensionAPI.

Local Open Scope conn_scope.

(** [health.environment && !health.environment.hasApiKey]: the second read
    happens only when the first value is truthy. *)
Definition key_is_missing (health : json) : Act bool :=
  environment <- pure (Js.get_prop health "environment") ;;
  match environment with
  | Some env =>
      if Js.truthy env then
        hasApiKey <- pure (Js.get_prop env "hasApiKey") ;;
        ret (negb (Js.truthy_opt hasApiKey))
      else ret false
  | None => ret false
  end.

(** [checkConnection], the effect run on mount. *)
Definition checkConnection : Act unit :=
  try_catch
    (health <- lift (Api.checkHealth net omnidimensionAPI) ;;
     if Js.truthy health then
       setConnectionStatus connected ;;;
       missing <- key_is_missing health ;;
       if missing then setApiError (Some key_missing_message)
       else
         apiHealth <- pure (Js.get_prop health "omnidimensionApiHealth") ;;
         if negb (Js.truthy_opt apiHealth) then setApiError (Some not_responding_message)
         else ret tt
     else
       setConnectionStatus error ;;;
       setApiError (Some health_failed_message))
    (fun _ =>
       setConnectionStatus error ;;;
       setApiError (Some cannot_connect_message)).

End Mount.

End Connection.

Module Controls.

(** What [handleKeyPress] reads of a [React.KeyboardEvent]. *)
Record KeyboardEvent : Type := mkKeyboardEvent { key : string; shiftKey : bool }.

(** The [disabled] attribute of the send button; [isListening] is state
    the send handler does not touch. *)
Definition sendDisabled (st : Chat.ChatState) (isListening : bool) : bool :=
  Str.is_empty (Str.trim (Chat.inputText st)) || isListening || Chat.isTyping st.

Section Keyboard.
Context `{NumberHost}.
Variable browser : Chat.Browser.
Variable omnidimensionAPI : Api.OmnidimensionAPI.

(** [handleKeyPress]; the value returned tells whether [e.preventDefault()]
    was called. *)
Definition handleKeyPress (e : KeyboardEvent) : Chat.Act bool :=
  if String.eqb (key e) "Enter" && negb (shiftKey e) then
    (* e.preventDefault(); handleSendMessage(): the promise is not awaited,
       so how it settles does not reach this handler *)
    fun st =>
      match Chat.handleSendMessage browser omnidimensionAPI st with
      | (st', t, _) => (st', t, Normal true)
      end
  else Chat.ret false.

End Keyboard.

End Controls.

(** What the health check amounts to, read off a network. *)
Module Reading.

(** The value a health check ends with: the parsed body of an ok reply,
    [null] in every other case. *)
Definition health_value (net : Network) (api : Api.OmnidimensionAPI) : json :=
  match net (Api.health_request api) with
  | Normal response =>
      if res_ok response then
        match res_json response with
        | Normal body => body
        | Throw _ => JNull
        end
      else JNull
  | Throw _ => JNull
  end.

(** The health value has a truthy [environment] without a truthy
    [hasApiKey] in it. *)
Definition lacks_api_key (health : json) : bool :=
  match Spec.field "environment" health with
  | Some env => Js.truthy env && negb (Js.truthy_opt (Spec.field "hasApiKey" env))
  | None => false
  end.

(** Which banner text, if any, a truthy health value leads to. *)
Definition health_complaint (health : json) : option string :=
  if lacks_api_key health then Some Connection.key_missing_message
  else if negb (Js.truthy_opt (Spec.field "omnidimensionApiHealth" health))
       then Some Connection.not_responding_message
       else None.

(** A reply value that is a number or a boolean: no string, yet a text
    the view can show (a number as its digits, a boolean as nothing),
    unlike an object, which React refuses as a child. *)
Definition number_or_boolean (v : json) : bool :=
  match v with
  | JNum _ | JBool _ => true
  | JNull | JStr _ | JArr _ | JObj _ => false
  end.

End Reading.

(** The requests among the events of a run. *)
Module Trace.

Definition is_fetch (ev : event) : bool :=
  match ev with
  | Fetch _ => true
  | SpeechCancel | SpeechSpeak _ => false
  end.

Definition requests (t : list event) : list event := filter is_fetch t.

End Trace.

Module Scenario.

(** The server answers 200 with a reply that is a number. *)
Definition reply_number : Response :=
  mkResponse 200 "OK" (Normal (JObj [("response", JNum 42)])).
Definition browser_number : Chat.Browser :=
  Chat.mkBrowser (fun _ => Normal reply_number) true Sample.clock.

(** The server answers 200 with a body that is not JSON. *)
Definition reply_not_json : Response :=
  mkResponse 200 "OK" (Throw (mkError SyntaxError "Unexpected token < in JSON at position 0")).

(** The network fails with the wording of an engine that does not say
    "fetch". *)
Definition net_load_failed : Network := fun _ => Throw (mkError TypeError "Load failed").

(** A health reply with the fields the [BackendHealthResponse] interface
    declares. *)
Definition health_declared : json :=
  JObj [("status", JStr "healthy"); ("service", JStr "captain-focus-backend");
        ("message", JStr "ok"); ("timestamp", JStr "2025-01-01T00:00:00.000Z");
        ("environment", JObj [("nodeEnv", JStr "production"); ("nodeVersion", JStr "v20.0.0");
                              ("port", JNum 3001)])].
Definition net_health_declared : Network :=
  fun _ => Normal (mkResponse 200 "OK" (Normal health_declared)).

Definition starting : Connection.State := Connection.mkState Connection.connecting None.

(** A state with a request in flight and a new text typed. *)
Definition typing_more : Chat.ChatState :=
  Chat.mkChatState [Sample.greeting] "and another thing" true false None.

Definition three_voices : list string :=
  ["Google US English"; "Microsoft Zira - English (United States)"; "Samantha"].

Definition out_of_range : Voice.Store :=
  Voice.mkStore (Voice.mkVoiceSettings 7 1.1 0.9) ∅.

End Scenario.

#[local] Arguments String.append !s1 s2 / : simpl nomatch.

Module StrFacts.

Lemma append_empty_r (s : string) : s +:+ EmptyString = s.
Proof. induction s as [|c s IH]; simpl; [reflexivity | now rewrite IH]. Qed.

Lemma append_assoc (a b c : string) : (a +:+ b) +:+ c = a +:+ (b +:+ c).
Proof. induction a as [|x a IH]; simpl; [reflexivity | now rewrite IH]. Qed.

Lemma fold_case_empty (s : string) : Spec.fold_case s = EmptyString -> s = EmptyString.
Proof. destruct s; simpl; [reflexivity | discriminate]. Qed.

(** Reading a keyword at the start of a text, case ignored, is reading a
    prefix that equals the keyword up to letter case. *)
Lemma starts_with_fold (pat s : string) :
  Str.starts_with Str.eq_ignore_case pat s = true <->
  exists mid post, s = mid +:+ post /\ Spec.fold_case mid = Spec.fold_case pat.
Proof.
  revert s. induction pat as [|p pat IH]; intros s.
  - split; [intros _ | reflexivity].
    exists EmptyString, s. split; reflexivity.
  - destruct s as [|c s]; simpl.
    + split; [discriminate |].
      intros (mid & post & Hs & Hf). destruct mid; simpl in *; discriminate.
    + rewrite andb_true_iff, IH. unfold Str.eq_ignore_case. rewrite Ascii.eqb_eq.
      split.
      * intros (Hc & mid & post & -> & Hf).
        exists (String c mid), post. simpl. split; [reflexivity | congruence].
      * intros (mid & post & Hs & Hf).
        destruct mid as [|m mid]; simpl in *; [discriminate |].
        injection Hs as -> ->. injection Hf as Hc Hf.
        split; [congruence |]. exists mid, post. split; [reflexivity | assumption].
Qed.

Lemma alt_here_spec eqc alts s :
  Str.alt_here eqc alts s = true <->
  exists kw, In kw alts /\ Str.starts_with eqc kw s = true.
Proof. unfold Str.alt_here. apply existsb_exists. Qed.

(** The scan finds a keyword exactly when some suffix of the text starts
    with one. *)
Lemma search_spec eqc alts s :
  Str.search eqc alts s = true <->
  exists kw pre rest, In kw alts /\ s = pre +:+ rest /\ Str.starts_with eqc kw rest = true.
Proof.
  induction s as [|c s IH].
  - simpl. rewrite orb_false_r, alt_here_spec. split.
    + intros (kw & Hin & Hst). exists kw, EmptyString, EmptyString. auto.
    + intros (kw & pre & rest & Hin & Hs & Hst).
      destruct pre; simpl in Hs; [subst rest; eauto | discriminate].
  - simpl. rewrite orb_true_iff, alt_here_spec, IH. split.
    + intros [(kw & Hin & Hst) | (kw & pre & rest & Hin & -> & Hst)].
      * exists kw, EmptyString, (String c s). auto.
      * exists kw, (String c pre), rest. auto.
    + intros (kw & pre & rest & Hin & Hs & Hst).
      destruct pre as [|x pre]; simpl in Hs.
      * subst rest. left. eauto.
      * injection Hs as -> ->. right. exists kw, pre, rest. auto.
Qed.

(** The case-insensitive pattern test agrees with the specification's
    "the text matches one of the keywords". *)
Lemma regex_test_i_mentions words s :
  Str.regex_test_i words s = true <-> Spec.mentions words s.
Proof.
  unfold Str.regex_test_i, Spec.mentions, Spec.occurs_ignoring_case.
  rewrite search_spec. split.
  - intros (kw & pre & rest & Hin & -> & Hst).
    apply starts_with_fold in Hst as (mid & post & -> & Hf).
    exists kw. split; [assumption |]. exists pre, mid, post. auto.
  - intros (kw & Hin & pre & mid & post & -> & Hf).
    exists kw, pre, (mid +:+ post). repeat split; [assumption |].
    apply starts_with_fold. eauto.
Qed.

Lemma regex_test_i_not_mentions words s :
  Str.regex_test_i words s = false <-> ~ Spec.mentions words s.
Proof.
  rewrite <- regex_test_i_mentions. destruct (Str.regex_test_i words s); split; intros; try easy.
Qed.

(** Leading white space is dropped, one code point at a time. *)
Lemma trimStart_white (w s : string) :
  In w Spec.white_space -> Str.trimStart (w +:+ s) = Str.trimStart s.
Proof.
  intros Hw. unfold Spec.white_space in Hw. simpl in Hw.
  repeat (destruct Hw as [<- | Hw]; [reflexivity |]).
  contradiction.
Qed.

Lemma trimStart_blank (s : string) : Spec.blank s -> Str.trimStart s = EmptyString.
Proof.
  induction 1 as [| w s Hw _ IH]; [reflexivity |].
  rewrite trimStart_white by assumption. exact IH.
Qed.

(** A blank text trims to the empty string. *)
Lemma trim_blank (s : string) : Spec.blank s -> Str.is_empty (Str.trim s) = true.
Proof.
  intros Hs. unfold Str.trim. rewrite trimStart_blank by assumption. reflexivity.
Qed.

End StrFacts.

(* ===================================================================== *)
(** ** Facts about the API client *)
(* ===================================================================== *)

Module ApiFacts.
Section Facts.
Context `{NumberHost}.
Variable net : Network.
Variable self : Api.OmnidimensionAPI.

(** The [catch] block passes on the errors the [try] block makes itself. *)
Lemma catch_plain (msg : string) :
  Api.sendMessage_catch (new_Error msg) = ([], Throw (new_Error msg)).
Proof. reflexivity. Qed.

(** No request is made unless the latest message is the user's. *)
Lemma sendMessage_not_user (messages : list Api.ChatMessage) (m : Api.ChatMessage) :
  last messages = Some m ->
  Api.is_user (Api.role m) = false ->
  Api.sendMessage net self messages = ([], Throw (new_Error Api.latest_not_user_message)).
Proof.
  intros Hlast Hrole.
  unfold Api.sendMessage, Api.sendMessage_try. rewrite Hlast. simpl.
  rewrite Hrole. reflexivity.
Qed.

Lemma sendMessage_empty :
  Api.sendMessage net self [] = ([], Throw (Js.cannot_read "undefined" "role")).
Proof. reflexivity. Qed.

(** With a user message last, the call is one fetch followed by the
    handling of what the fetch settles to. *)
Lemma sendMessage_user (messages : list Api.ChatMessage) (s : string) :
  last messages = Some (Api.mkChatMessage Api.user (JStr s)) ->
  fst (Api.sendMessage net self messages) = [Fetch (Api.chat_request self (JStr s))].
Proof.
  intros Hlast.
  unfold Api.sendMessage, Api.sendMessage_try. rewrite Hlast. simpl.
  unfold Eff.fetch, Eff.bind, Eff.try_catch, Eff.pure.
  destruct (net _) as [r | e]; simpl.
  - destruct (res_ok r); simpl.
    + destruct (res_json r) as [data | e]; simpl.
      * destruct (Js.get_prop data "response") as [[v|] | e]; simpl.
        -- destruct (Js.truthy v); reflexivity.
        -- reflexivity.
        -- unfold Api.sendMessage_catch. destruct (_ && _); reflexivity.
      * unfold Api.sendMessage_catch. destruct (_ && _); reflexivity.
    + destruct (res_json r) as [data | e]; simpl.
      * destruct (Js.get_prop data "error") as [v | e]; simpl.
        -- destruct (_ =? 404)%N; [reflexivity |].
           destruct (_ =? 500)%N;
             (destruct (Js.ToString _) as [rendered | e]; simpl; [reflexivity |];
              unfold Api.sendMessage_catch; destruct (_ && _); reflexivity).
        -- unfold Api.sendMessage_catch. destruct (_ && _); reflexivity.
      * destruct (_ =? 404)%N; [reflexivity |]. destruct (_ =? 500)%N; reflexivity.
  - unfold Api.sendMessage_catch. destruct (_ && _); reflexivity.
Qed.

(** Unfold a call whose latest message is known, up to the fetch. *)
Ltac run_send Hlast Hnet :=
  unfold Api.sendMessage, Api.sendMessage_try; rewrite Hlast; simpl;
  unfold Eff.fetch, Eff.bind, Eff.try_catch, Eff.pure; rewrite Hnet; simpl.

Lemma field_get_prop (name : string) (body : json) :
  body <> JNull -> Js.get_prop body name = Normal (Spec.field name body).
Proof. destruct body; simpl; congruence. Qed.

Lemma sendMessage_fetch_fails (messages : list Api.ChatMessage) (s : string) (e : jserror) :
  last messages = Some (Api.mkChatMessage Api.user (JStr s)) ->
  net (Api.chat_request self (JStr s)) = Throw e ->
  Api.sendMessage net self messages =
    ([Fetch (Api.chat_request self (JStr s))],
     Throw (if instanceof_TypeError e && Str.includes (err_message e) "fetch"
            then new_Error Api.cannot_connect_message else e)).
Proof.
  intros Hlast Hnet. run_send Hlast Hnet.
  unfold Api.sendMessage_catch. destruct (_ && _); reflexivity.
Qed.

Lemma sendMessage_success (messages : list Api.ChatMessage) (s : string)
      (r : Response) (data v : json) :
  last messages = Some (Api.mkChatMessage Api.user (JStr s)) ->
  net (Api.chat_request self (JStr s)) = Normal r ->
  res_ok r = true ->
  res_json r = Normal data ->
  Spec.field "response" data = Some v ->
  Js.truthy v = true ->
  Api.sendMessage net self messages = ([Fetch (Api.chat_request self (JStr s))], Normal v).
Proof.
  intros Hlast Hnet Hok Hjson Hfield Htruthy. run_send Hlast Hnet.
  rewrite Hok, Hjson. simpl.
  rewrite field_get_prop by (intros ->; discriminate). rewrite Hfield. simpl.
  rewrite Htruthy. reflexivity.
Qed.

Lemma sendMessage_status_error (messages : list Api.ChatMessage) (s : string) (r : Response) :
  last messages = Some (Api.mkChatMessage Api.user (JStr s)) ->
  net (Api.chat_request self (JStr s)) = Normal r ->
  res_ok r = false ->
  res_json r <> Normal JNull ->
  Api.sendMessage net self messages =
    ([Fetch (Api.chat_request self (JStr s))], Throw (Spec.status_error r)).
Proof.
  intros Hlast Hnet Hok Hbody. run_send Hlast Hnet.
  rewrite Hok. simpl. unfold Spec.status_error, Spec.detail, Spec.detail_value, Js.ToString.
  destruct (res_json r) as [body | e]; simpl.
  - rewrite field_get_prop by congruence. simpl.
    destruct (_ =? 404)%N; [reflexivity |].
    destruct (_ =? 500)%N; destruct (Js.primitive_text _); reflexivity.
  - destruct (_ =? 404)%N; [reflexivity |]. destruct (_ =? 500)%N; reflexivity.
Qed.

Lemma sendMessage_invalid (messages : list Api.ChatMessage) (s : string)
      (r : Response) (data : json) :
  last messages = Some (Api.mkChatMessage Api.user (JStr s)) ->
  net (Api.chat_request self (JStr s)) = Normal r ->
  res_ok r = true ->
  res_json r = Normal data ->
  data <> JNull ->
  Js.truthy_opt (Spec.field "response" data) = false ->
  Api.sendMessage net self messages =
    ([Fetch (Api.chat_request self (JStr s))], Throw (new_Error Api.invalid_response_message)).
Proof.
  intros Hlast Hnet Hok Hjson Hnull Hfalsy. run_send Hlast Hnet.
  rewrite Hok, Hjson. simpl. rewrite field_get_prop by assumption. simpl.
  destruct (Spec.field "response" data) as [v|]; simpl in *; [rewrite Hfalsy |]; reflexivity.
Qed.

(** A reply body that is the JSON value [null]: the property read on it
    fails, and the [catch] block passes that TypeError on. *)
Lemma sendMessage_null_body (messages : list Api.ChatMessage) (s : string) (r : Response) :
  last messages = Some (Api.mkChatMessage Api.user (JStr s)) ->
  net (Api.chat_request self (JStr s)) = Normal r ->
  res_json r = Normal JNull ->
  Api.sendMessage net self messages =
    ([Fetch (Api.chat_request self (JStr s))],
     Throw (Js.cannot_read "null" (if res_ok r then "response" else "error"))).
Proof.
  intros Hlast Hnet Hjson. run_send Hlast Hnet.
  rewrite Hjson. destruct (res_ok r); reflexivity.
Qed.

End Facts.
End ApiFacts.

(* ===================================================================== *)
(** ** Facts about the conversation controller *)
(* ===================================================================== *)

Module ChatFacts.
Section Facts.
Context `{NumberHost}.
Variable browser : Chat.Browser.
Variable api : Api.OmnidimensionAPI.

Lemma instanceof_Error_always (e : jserror) : instanceof_Error e = true.
Proof. unfold instanceof_Error. destruct (err_class e); reflexivity. Qed.

(** The list handed to [sendMessage] always ends with the user's input. *)
Lemma apiMessages_last (rendered : list Chat.Message) (input : string) :
  last (Chat.apiMessages api rendered input) = Some (Api.mkChatMessage Api.user (JStr input)).
Proof.
  unfold Chat.apiMessages. rewrite app_assoc. apply last_snoc.
Qed.

Ltac run_handler Hinput :=
  unfold Chat.handleSendMessage, Chat.bind, Chat.get, Chat.try_catch, Chat.lift,
    Chat.setMessages, Chat.setInputText, Chat.setIsTyping, Chat.setApiError, Chat.modify;
  rewrite Hinput; simpl.

Ltac run_speech :=
  unfold Chat.speakText, Chat.bind, Chat.emit, Chat.pure, Chat.ret,
    Chat.setIsSpeaking, Chat.modify; simpl.

(** A blank input: the handler returns at its first line. *)
Lemma handleSendMessage_skips (st : Chat.ChatState) :
  Str.is_empty (Str.trim (Chat.inputText st)) = true ->
  Chat.handleSendMessage browser api st = (st, [], Normal tt).
Proof. intros Hinput. run_handler Hinput. reflexivity. Qed.

(** The call rejects: the [catch] block runs on the state the [try] block
    left. *)
Lemma handleSendMessage_rejected (st : Chat.ChatState) (t : list event) (e : jserror) :
  Str.is_empty (Str.trim (Chat.inputText st)) = false ->
  Api.sendMessage (Chat.network browser) api
                  (Chat.apiMessages api (Chat.messages st) (Chat.inputText st)) = (t, Throw e) ->
  Chat.handleSendMessage browser api st =
    (Chat.mkChatState
       (Chat.messages st ++ [Chat.userMessage browser (Chat.inputText st); Chat.fallbackMessage browser])
       EmptyString false
       (if Chat.speechSynthesis browser then true else Chat.isSpeaking st)
       (Some (err_message e)),
     t ++ (if Chat.speechSynthesis browser
           then [SpeechCancel; SpeechSpeak Chat.fallbackResponse] else []),
     Normal tt).
Proof.
  intros Hinput Hsend. run_handler Hinput. rewrite Hsend. simpl.
  rewrite instanceof_Error_always. run_speech.
  destruct (Chat.speechSynthesis browser); simpl;
    rewrite <- app_assoc; reflexivity.
Qed.

(** The call resolves with a string: the [try] block runs to its end. *)
Lemma handleSendMessage_replied (st : Chat.ChatState) (t : list event) (reply : string) :
  Str.is_empty (Str.trim (Chat.inputText st)) = false ->
  Api.sendMessage (Chat.network browser) api
                  (Chat.apiMessages api (Chat.messages st) (Chat.inputText st))
    = (t, Normal (JStr reply)) ->
  Chat.handleSendMessage browser api st =
    (Chat.mkChatState
       (Chat.messages st
          ++ [Chat.userMessage browser (Chat.inputText st);
              Chat.replyMessage browser (JStr reply) (Chat.detectMood (Chat.inputText st))])
       EmptyString false
       (if Chat.speechSynthesis browser then true else Chat.isSpeaking st)
       None,
     t ++ (if Chat.speechSynthesis browser then [SpeechCancel; SpeechSpeak reply] else []),
     Normal tt).
Proof.
  intros Hinput Hsend. run_handler Hinput. rewrite Hsend. simpl. run_speech.
  destruct (Chat.speechSynthesis browser); simpl;
    rewrite <- app_assoc; reflexivity.
Qed.

(** The call resolves, with any value: the reply is appended right after
    the user's message, carrying the mood detected on the input.  (A value
    that is not a string makes [speakText] throw after that, and the
    [catch] block then appends the fallback as well.) *)
Lemma handleSendMessage_appends_reply (st : Chat.ChatState) (t : list event) (v : json) :
  Str.is_empty (Str.trim (Chat.inputText st)) = false ->
  Api.sendMessage (Chat.network browser) api
                  (Chat.apiMessages api (Chat.messages st) (Chat.inputText st))
    = (t, Normal v) ->
  exists rest,
    Chat.messages (fst (fst (Chat.handleSendMessage browser api st))) =
      Chat.messages st
        ++ [Chat.userMessage browser (Chat.inputText st);
            Chat.replyMessage browser v (Chat.detectMood (Chat.inputText st))]
        ++ rest
    /\ snd (Chat.handleSendMessage browser api st) = Normal tt.
Proof.
  intros Hinput Hsend. run_handler Hinput. rewrite Hsend. simpl. run_speech.
  destruct (Chat.speechSynthesis browser); simpl.
  - destruct v; simpl;
      try (exists [Chat.fallbackMessage browser]; rewrite <- !app_assoc; split; reflexivity).
    exists []. rewrite <- !app_assoc. split; reflexivity.
  - exists []. rewrite <- !app_assoc. split; reflexivity.
Qed.

End Facts.
End ChatFacts.

(* ===================================================================== *)
(** ** Facts about the voice settings *)
(* ===================================================================== *)

Module VoiceFacts.
Section Facts.
Context `{Voice.SettingsJSON}.

Lemma saveEffect_persisted (st : Voice.Store) : Voice.persisted (Voice.saveEffect st).
Proof. unfold Voice.persisted, Voice.saveEffect. simpl. apply lookup_insert_eq. Qed.

Lemma setVoiceSettings_persisted updater (st : Voice.Store) :
  Voice.persisted (Voice.setVoiceSettings updater st).
Proof. apply saveEffect_persisted. Qed.

(** An action either leaves the store as it is or ends with the save. *)
Lemma dispatch_cases (a : Voice.Action) (st : Voice.Store) :
  Voice.dispatch a st = st \/ Voice.persisted (Voice.dispatch a st).
Proof.
  destruct a; simpl; try (right; apply setVoiceSettings_persisted).
  unfold Voice.loadVoices. destruct (_ && _); [right | left; reflexivity].
  apply setVoiceSettings_persisted.
Qed.

Lemma dispatch_keeps_persisted (a : Voice.Action) (st : Voice.Store) :
  Voice.persisted st -> Voice.persisted (Voice.dispatch a st).
Proof. intros Hst. destruct (dispatch_cases a st) as [-> | Hp]; assumption. Qed.

Lemma run_keeps_persisted (actions : list Voice.Action) (st : Voice.Store) :
  Voice.persisted st -> Voice.persisted (Voice.run actions st).
Proof.
  revert st. induction actions as [|a actions IH]; intros st Hst; simpl; [assumption |].
  apply IH, dispatch_keeps_persisted, Hst.
Qed.

Lemma mount_persisted (storage : gmap string string) (st : Voice.Store) :
  Voice.mount storage = Normal st -> Voice.persisted st.
Proof.
  unfold Voice.mount. destruct (Voice.initialVoiceSettings storage); [| discriminate].
  intros [= <-]. apply saveEffect_persisted.
Qed.

End Facts.
End VoiceFacts.

(* ===================================================================== *)
(** ** The model on concrete inputs *)
(* ===================================================================== *)

Module Examples.

Example trim_spaces : Str.trim "  hi there   " = "hi there".
Proof. reflexivity. Qed.

Example trim_no_break_space : Str.trim Sample.blank_input = EmptyString.
Proof. reflexivity. Qed.

Example includes_fetch : Str.includes "Failed to fetch" "fetch" = true.
Proof. reflexivity. Qed.

Example includes_is_case_sensitive : Str.includes "Load failed" "fetch" = false.
Proof. reflexivity. Qed.

Example mood_priority : Chat.detectMood "Good, but I am TIRED" = Chat.tired.
Proof. reflexivity. Qed.

Example mood_dont_understand : Chat.detectMood "I don't understand" = Chat.confused.
Proof. reflexivity. Qed.

Example mood_understand : Chat.detectMood "Now I understand" = Chat.happy.
Proof. reflexivity. Qed.

Example mood_substring : Chat.detectMood "orchard" = Chat.confused.
Proof. reflexivity. Qed.

Example mood_neutral : Chat.detectMood "What is a monad?" = Chat.neutral.
Proof. reflexivity. Qed.

Example array_ToString :
  Js.ToString (H := Sample.host) (JArr [JStr "a"; JNull; JArr [JBool true; JStr "b"]])
  = Normal "a,,true,b".
Proof. reflexivity. Qed.

Example object_ToString :
  Js.ToString (H := Sample.host) (JObj [("code", JStr "E1")]) = Normal "[object Object]".
Proof. reflexivity. Qed.

Example own_toString_throws :
  Js.ToString (H := Sample.host) (JArr [JStr "a"; JObj [("toString", JStr "boom")]])
  = Throw Js.cannot_convert.
Proof. reflexivity. Qed.

Example server_error_500_object :
  Api.sendMessage (H := Sample.host) Sample.net_500_object Sample.api Sample.greeting_and_question =
    ([Fetch (Api.chat_request Sample.api (JStr "What is a monad?"))],
     Throw Js.cannot_convert).
Proof. reflexivity. Qed.

Example server_error_500 :
  Api.sendMessage (H := Sample.host) Sample.net_500 Sample.api Sample.greeting_and_question =
    ([Fetch (Api.chat_request Sample.api (JStr "What is a monad?"))],
     Throw (new_Error "Server error: boom")).
Proof. reflexivity. Qed.

Example server_down :
  Api.sendMessage (H := Sample.host) Sample.net_down Sample.api Sample.greeting_and_question =
    ([Fetch (Api.chat_request Sample.api (JStr "What is a monad?"))],
     Throw (new_Error Api.cannot_connect_message)).
Proof. reflexivity. Qed.

Example health_down : Api.checkHealth Sample.net_down Sample.api
  = ([Fetch (Api.health_request Sample.api)], Normal JNull).
Proof. reflexivity. Qed.

Example send_and_reply :
  Chat.handleSendMessage (H := Sample.host) Sample.browser_great Sample.api
                         (Sample.typed "thanks, captain") =
    (Chat.mkChatState
       [Sample.greeting;
        Chat.mkMessage "1700000000000" (JStr "thanks, captain") Chat.user None 1700000000000;
        Chat.mkMessage "1700000000001" (JStr "Great question!") Chat.captain (Some Chat.happy)
                       1700000000000]
       EmptyString false true None,
     [Fetch (Api.chat_request Sample.api (JStr "thanks, captain"));
      SpeechCancel; SpeechSpeak "Great question!"],
     Normal tt).
Proof. reflexivity. Qed.

End Examples.

(* ===================================================================== *)
(** ** The properties of the specification *)
(* ===================================================================== *)

(** C1.  For a message list whose last element is a user message with text
    [s], [sendMessage] causes exactly one request, whatever the network
    answers: a POST to [backendUrl + "/api/chat"] whose JSON body is the
    object with the single field [message] holding [s], so nothing of the
    earlier messages or of the system prompt is sent.  When the response is
    ok and its JSON carries a truthy [response] field, the call resolves
    with that field.  In the controller, such a response to a sent input
    puts a captain message with that value as text into the message list. *)
Theorem sendMessage_posts_latest_message `{NumberHost} (self : Api.OmnidimensionAPI) :
  (forall (net : Network) (messages : list Api.ChatMessage) (m : Api.ChatMessage) (s : string),
      last messages = Some m ->
      Api.role m = Api.user ->
      Api.content m = JStr s ->
      fst (Api.sendMessage net self messages) =
        [Fetch (mkRequest (Api.backendUrl self +:+ "/api/chat") "POST"
                          [("Content-Type", "application/json")]
                          (Some (JObj [("message", JStr s)])))]
      /\ forall (r : Response) (data v : json),
          net (Api.chat_request self (JStr s)) = Normal r ->
          res_ok r = true ->
          res_json r = Normal data ->
          Spec.field "response" data = Some v ->
          Js.truthy v = true ->
          snd (Api.sendMessage net self messages) = Normal v)
  /\ (forall (browser : Chat.Browser) (st : Chat.ChatState) (r : Response) (data v : json),
      Str.is_empty (Str.trim (Chat.inputText st)) = false ->
      Chat.network browser (Api.chat_request self (JStr (Chat.inputText st))) = Normal r ->
      res_ok r = true ->
      res_json r = Normal data ->
      Spec.field "response" data = Some v ->
      Js.truthy v = true ->
      exists before reply after,
        Chat.messages (fst (fst (Chat.handleSendMessage browser self st)))
          = before ++ reply :: after
        /\ Chat.sender reply = Chat.captain
        /\ Chat.text reply = v).
Proof.
  split.
  - intros net messages [role s'] s Hlast Hrole Hcontent. simpl in *. subst role s'.
    split.
    + apply (ApiFacts.sendMessage_user net self messages s Hlast).
    + intros r data v Hnet Hok Hjson Hfield Htruthy.
      now rewrite (ApiFacts.sendMessage_success net self messages s r data v).
  - intros browser st r data v Hinput Hnet Hok Hjson Hfield Htruthy.
    pose proof (ApiFacts.sendMessage_success (Chat.network browser) self
                  (Chat.apiMessages self (Chat.messages st) (Chat.inputText st))
                  (Chat.inputText st) r data v
                  (ChatFacts.apiMessages_last self _ _) Hnet Hok Hjson Hfield Htruthy) as Hsend.
    destruct (ChatFacts.handleSendMessage_appends_reply browser self st _ v Hinput Hsend)
      as (rest & Hmsgs & _).
    exists (Chat.messages st ++ [Chat.userMessage browser (Chat.inputText st)]),
      (Chat.replyMessage browser v (Chat.detectMood (Chat.inputText st))), rest.
    split; [| split; reflexivity].
    rewrite Hmsgs, <- app_assoc. reflexivity.
Qed.

(** C1 at a concrete conversation: the system prompt, a greeting and a user
    question, against a backend that answers 200. *)
Lemma sendMessage_posts_latest_message_witness :
  Api.sendMessage (H := Sample.host) Sample.net_great Sample.api Sample.greeting_and_question =
    ([Fetch (mkRequest "http://localhost:3001/api/chat" "POST"
                       [("Content-Type", "application/json")]
                       (Some (JObj [("message", JStr "What is a monad?")])))],
     Normal (JStr "Great question!")).
Proof.
  destruct (sendMessage_posts_latest_message (H := Sample.host) Sample.api) as [Hsend _].
  destruct (Hsend Sample.net_great Sample.greeting_and_question
                  (Api.mkChatMessage Api.user (JStr "What is a monad?")) "What is a monad?"
                  eq_refl eq_refl eq_refl) as [Htrace Hresult].
  specialize (Hresult Sample.reply_great _ (JStr "Great question!")
                      eq_refl eq_refl eq_refl eq_refl eq_refl).
  destruct (Api.sendMessage _ _ _) as [t c]. simpl in *. subst t c. reflexivity.
Defined.

(** X1 (the part of C2 the code keeps).  With a user message last: a fetch
    that rejects with a TypeError whose message contains "fetch" becomes
    the cannot-connect Error.  A response that is not ok, with a body other
    than the JSON value [null], becomes "Backend service not found ..." for
    404, "Server error: <detail>" for 500 and "Backend request failed:
    <detail>" for any other status, where <detail> is the text of the
    body's truthy [error] field, else of [HTTP <status>: <statusText>];
    when that [error] value has no text (an object with a [toString] key
    of its own, or an array holding one) and the status is not 404, the
    call rejects with the TypeError of the conversion instead.  An ok
    response without a truthy [response] field, body not [null], becomes
    the invalid-response Error.  In none of these cases, [null] bodies
    included, does the call resolve. *)
Lemma sendMessage_translates_failures `{NumberHost} (net : Network) (self : Api.OmnidimensionAPI)
      (messages : list Api.ChatMessage) (s : string) :
  last messages = Some (Api.mkChatMessage Api.user (JStr s)) ->
  (forall e, net (Api.chat_request self (JStr s)) = Throw e ->
             instanceof_TypeError e = true ->
             Str.includes (err_message e) "fetch" = true ->
             snd (Api.sendMessage net self messages) = Throw (new_Error Api.cannot_connect_message))
  /\ (forall r, net (Api.chat_request self (JStr s)) = Normal r ->
                res_ok r = false ->
                res_json r <> Normal JNull ->
                (res_status r = 404%N ->
                 snd (Api.sendMessage net self messages)
                   = Throw (new_Error
                              "Backend service not found. Please check if the server is running."))
                /\ (forall text, res_status r = 500%N ->
                                 Spec.detail r = Some text ->
                                 snd (Api.sendMessage net self messages)
                                   = Throw (new_Error ("Server error: " +:+ text)))
                /\ (forall text, res_status r <> 404%N ->
                                 res_status r <> 500%N ->
                                 Spec.detail r = Some text ->
                                 snd (Api.sendMessage net self messages)
                                   = Throw (new_Error ("Backend request failed: " +:+ text)))
                /\ (res_status r <> 404%N ->
                    Spec.detail r = None ->
                    snd (Api.sendMessage net self messages) = Throw Js.cannot_convert))
  /\ (forall r data, net (Api.chat_request self (JStr s)) = Normal r ->
                     res_ok r = true ->
                     res_json r = Normal data ->
                     data <> JNull ->
                     Js.truthy_opt (Spec.field "response" data) = false ->
                     snd (Api.sendMessage net self messages)
                       = Throw (new_Error Api.invalid_response_message))
  /\ (forall r, net (Api.chat_request self (JStr s)) = Normal r ->
                res_ok r = false \/
                (exists data, res_json r = Normal data
                              /\ Js.truthy_opt (Spec.field "response" data) = false) ->
                exists e, snd (Api.sendMessage net self messages) = Throw e).
Proof.
  intros Hlast. split; [| split; [| split]].
  - intros e Hnet Hty Hinc.
    rewrite (ApiFacts.sendMessage_fetch_fails net self messages s e Hlast Hnet), Hty, Hinc.
    reflexivity.
  - intros r Hnet Hok Hbody.
    rewrite (ApiFacts.sendMessage_status_error net self messages s r Hlast Hnet Hok Hbody).
    unfold Spec.status_error. simpl. repeat split.
    + intros ->. reflexivity.
    + intros text -> ->. reflexivity.
    + intros text H404 H500 ->.
      apply N.eqb_neq in H404, H500. rewrite H404, H500. reflexivity.
    + intros H404 ->. apply N.eqb_neq in H404. rewrite H404. reflexivity.
  - intros r data Hnet Hok Hjson Hnull Hfalsy.
    now rewrite (ApiFacts.sendMessage_invalid net self messages s r data).
  - intros r Hnet Hcase.
    destruct (res_ok r) eqn:Hok.
    + destruct Hcase as [Hno | (data & Hjson & Hfalsy)]; [discriminate Hno |].
      destruct data;
        try (eexists;
             rewrite (ApiFacts.sendMessage_invalid net self messages s r _ Hlast Hnet Hok Hjson);
             [reflexivity | congruence | assumption]).
      eexists. now rewrite (ApiFacts.sendMessage_null_body net self messages s r).
    + destruct (res_json r) as [[] | e0] eqn:Hjson;
        try (eexists;
             rewrite (ApiFacts.sendMessage_status_error net self messages s r Hlast Hnet Hok);
             [reflexivity | congruence]).
      eexists. now rewrite (ApiFacts.sendMessage_null_body net self messages s r).
Qed.

(** C2, where the code departs from it.  The backend answers 404 with the
    JSON body [null]: reading [errorData.error] throws before the status is
    looked at, the message of that TypeError has no "fetch" in it, and the
    [catch] block passes it on.  The call rejects with the TypeError, not
    with the Error "Backend service not found ...". *)
Theorem sendMessage_404_null_body :
  Api.sendMessage (H := Sample.host) Sample.net_404_null Sample.api Sample.greeting_and_question =
    ([Fetch (Api.chat_request Sample.api (JStr "What is a monad?"))],
     Throw (mkError TypeError "Cannot read properties of null (reading 'error')"))
  /\ mkError TypeError "Cannot read properties of null (reading 'error')"
     <> new_Error Api.not_found_message.
Proof. split; [reflexivity | discriminate]. Qed.

(** C3 as stated fails.  On a production page with [VITE_BACKEND_URL]
    defined and empty, the constructor takes the default pattern, whereas
    the sentence of the specification gives the (empty) variable. *)
Lemma constructor_empty_variable_counterexample :
  Api.backendUrl (Api.constructor Sample.env_empty_variable)
    = "https://captain-focus-backend.onrender.com"
  /\ Spec.stated_backend_url Sample.env_empty_variable = EmptyString
  /\ Api.backendUrl (Api.constructor Sample.env_empty_variable)
     <> Spec.stated_backend_url Sample.env_empty_variable.
Proof. repeat split. discriminate. Qed.

Lemma env_or_configured (env : Api.Environment) (url dflt : string) :
  Spec.configured env url -> Api.env_or (Api.VITE_BACKEND_URL env) dflt = url.
Proof.
  intros [-> Hne]. unfold Api.env_or. destruct url; [contradiction | reflexivity].
Qed.

Lemma env_or_unconfigured (env : Api.Environment) (dflt : string) :
  Spec.unconfigured env -> Api.env_or (Api.VITE_BACKEND_URL env) dflt = dflt.
Proof. intros [-> | ->]; reflexivity. Qed.

Lemma local_host_test (location : Api.Location) :
  String.eqb (Api.hostname location) "localhost"
  || String.eqb (Api.hostname location) "127.0.0.1" = true
  <-> Spec.local_host location.
Proof.
  unfold Spec.local_host. rewrite orb_true_iff, !String.eqb_eq. reflexivity.
Qed.

(** C3, amended.  In a browser on host [localhost] or [127.0.0.1] the URL
    is [http://localhost:3001]; in a browser on any other host it is
    [VITE_BACKEND_URL] when that is set to a non-empty text, and the
    page's protocol followed by [//captain-focus-backend.onrender.com] when
    it is unset or empty; outside a browser it is [VITE_BACKEND_URL] when
    set to a non-empty text and [http://localhost:3001] when unset or
    empty. *)
Theorem constructor_backend_url (env : Api.Environment) :
  (forall location,
      Api.window env = Some location ->
      Spec.local_host location ->
      Api.backendUrl (Api.constructor env) = "http://localhost:3001")
  /\ (forall location url,
      Api.window env = Some location ->
      ~ Spec.local_host location ->
      Spec.configured env url ->
      Api.backendUrl (Api.constructor env) = url)
  /\ (forall location,
      Api.window env = Some location ->
      ~ Spec.local_host location ->
      Spec.unconfigured env ->
      Api.backendUrl (Api.constructor env)
        = Api.protocol location +:+ "//captain-focus-backend.onrender.com")
  /\ (forall url,
      Api.window env = None ->
      Spec.configured env url ->
      Api.backendUrl (Api.constructor env) = url)
  /\ (Api.window env = None ->
      Spec.unconfigured env ->
      Api.backendUrl (Api.constructor env) = "http://localhost:3001").
Proof.
  unfold Api.constructor. repeat split.
  - intros location -> Hlocal. apply local_host_test in Hlocal. rewrite Hlocal. reflexivity.
  - intros location url -> Hlocal Hcfg.
    destruct (_ || _) eqn:Htest; [apply local_host_test in Htest; contradiction |].
    simpl. now apply env_or_configured.
  - intros location -> Hlocal Hun.
    destruct (_ || _) eqn:Htest; [apply local_host_test in Htest; contradiction |].
    simpl. now apply env_or_unconfigured.
  - intros url -> Hcfg. simpl. now apply env_or_configured.
  - intros -> Hun. simpl. now apply env_or_unconfigured.
Qed.

(** C3, amended, on a production page with the variable configured. *)
Lemma constructor_backend_url_witness :
  Api.backendUrl (Api.constructor Sample.env_configured) = "https://api.example".
Proof.
  destruct (constructor_backend_url Sample.env_configured) as (_ & Hconfigured & _).
  apply (Hconfigured (Api.mkLocation "captain-focus.example" "https:")).
  - reflexivity.
  - intros [Hhost | Hhost]; discriminate Hhost.
  - split; [reflexivity | discriminate].
Defined.

(** C4.  When [sendMessage] rejects with an error [e] during
    [handleSendMessage], in a browser the component runs in: the message
    list ends up as the list before, followed by the user's message and the
    fallback captain message (the fixed text, mood neutral); the message of
    [e] is stored as the API error; the input is cleared and the typing
    flag is off; the fallback text is spoken (after a cancel of what was
    being said); and the handler completes normally. *)
Theorem handleSendMessage_falls_back `{NumberHost} (browser : Chat.Browser)
        (api : Api.OmnidimensionAPI) (st : Chat.ChatState) (t : list event) (e : jserror) :
  Chat.mounts browser = true ->
  Str.is_empty (Str.trim (Chat.inputText st)) = false ->
  Api.sendMessage (Chat.network browser) api
                  (Chat.apiMessages api (Chat.messages st) (Chat.inputText st)) = (t, Throw e) ->
  let fallback := Chat.fallbackMessage browser in
  let '(st', events, outcome) := Chat.handleSendMessage browser api st in
  Chat.messages st' =
    Chat.messages st ++ [Chat.userMessage browser (Chat.inputText st); fallback]
  /\ Chat.text fallback = JStr Chat.fallbackResponse
  /\ Chat.sender fallback = Chat.captain
  /\ Chat.mood fallback = Some Chat.neutral
  /\ Chat.apiError st' = Some (err_message e)
  /\ Chat.isTyping st' = false
  /\ Chat.inputText st' = EmptyString
  /\ events = t ++ [SpeechCancel; SpeechSpeak Chat.fallbackResponse]
  /\ outcome = Normal tt.
Proof.
  intros Hmounts Hinput Hsend fallback.
  rewrite (ChatFacts.handleSendMessage_rejected browser api st t e Hinput Hsend).
  unfold Chat.mounts in Hmounts. rewrite Hmounts.
  simpl. repeat split; reflexivity.
Qed.

(** C4 with the server unreachable. *)
Lemma handleSendMessage_falls_back_witness :
  let '(st', events, outcome) :=
    Chat.handleSendMessage (H := Sample.host) Sample.browser_down Sample.api
                           (Sample.typed "I am stuck") in
  Chat.messages st' =
    [Sample.greeting; Chat.userMessage Sample.browser_down "I am stuck";
     Chat.fallbackMessage Sample.browser_down]
  /\ Chat.apiError st' = Some Api.cannot_connect_message
  /\ Chat.isTyping st' = false
  /\ events = [Fetch (Api.chat_request Sample.api (JStr "I am stuck"));
               SpeechCancel; SpeechSpeak Chat.fallbackResponse]
  /\ outcome = Normal tt.
Proof.
  pose proof (handleSendMessage_falls_back (H := Sample.host) Sample.browser_down Sample.api
                (Sample.typed "I am stuck")
                [Fetch (Api.chat_request Sample.api (JStr "I am stuck"))]
                (new_Error Api.cannot_connect_message) eq_refl eq_refl eq_refl) as Hfall.
  cbv zeta in Hfall.
  destruct (Chat.handleSendMessage _ _ _) as [[st' events] outcome].
  destruct Hfall as (Hm & _ & _ & _ & He & Ht & _ & Hev & Hc).
  repeat split; assumption.
Defined.

Lemma detectMood_meets_spec (s : string) : Spec.mood_of s (Chat.detectMood s).
Proof.
  unfold Chat.detectMood.
  destruct (Str.regex_test_i Chat.tired_words s) eqn:Ht.
  { apply StrFacts.regex_test_i_mentions, Ht. }
  apply StrFacts.regex_test_i_not_mentions in Ht.
  destruct (Str.regex_test_i Chat.confused_words s) eqn:Hc.
  { split; [exact Ht | apply StrFacts.regex_test_i_mentions, Hc]. }
  apply StrFacts.regex_test_i_not_mentions in Hc.
  destruct (Str.regex_test_i Chat.happy_words s) eqn:Hh.
  { repeat split; [exact Ht | exact Hc | apply StrFacts.regex_test_i_mentions, Hh]. }
  apply StrFacts.regex_test_i_not_mentions in Hh.
  repeat split; assumption.
Qed.

Lemma mood_of_functional (s : string) (m1 m2 : Chat.Mood) :
  Spec.mood_of s m1 -> Spec.mood_of s m2 -> m1 = m2.
Proof.
  destruct m1, m2; simpl; intros H1 H2; try reflexivity;
    repeat match goal with
           | H : _ /\ _ |- _ => destruct H
           end; contradiction.
Qed.

(** C5.  [detectMood] gives every text exactly one of the four labels, the
    one the keyword lists determine with letter case ignored and in the
    order tired, confused, happy, else neutral.  On a send that
    [sendMessage] resolves with a value [v], the captain message appended
    after the user's message carries [v] as text and, as mood, the label
    detected on the user's input, whatever [v] is. *)
Theorem detectMood_labels_from_input `{NumberHost} :
  (forall s : string,
      Spec.mood_of s (Chat.detectMood s)
      /\ forall m, Spec.mood_of s m -> m = Chat.detectMood s)
  /\ (forall (browser : Chat.Browser) (api : Api.OmnidimensionAPI) (st : Chat.ChatState)
             (t : list event) (v : json),
      Str.is_empty (Str.trim (Chat.inputText st)) = false ->
      Api.sendMessage (Chat.network browser) api
                      (Chat.apiMessages api (Chat.messages st) (Chat.inputText st))
        = (t, Normal v) ->
      exists rest,
        Chat.messages (fst (fst (Chat.handleSendMessage browser api st))) =
          Chat.messages st
            ++ [Chat.userMessage browser (Chat.inputText st);
                Chat.mkMessage (Str.of_Z (Chat.Date_now browser Chat.ReplyId + 1)) v Chat.captain
                               (Some (Chat.detectMood (Chat.inputText st)))
                               (Chat.Date_now browser Chat.ReplyDate)]
            ++ rest).
Proof.
  split.
  - intros s. split; [apply detectMood_meets_spec |].
    intros m Hm. apply (mood_of_functional s); [exact Hm | apply detectMood_meets_spec].
  - intros browser api st t v Hinput Hsend.
    destruct (ChatFacts.handleSendMessage_appends_reply browser api st t v Hinput Hsend)
      as (rest & Hmsgs & _).
    exists rest. exact Hmsgs.
Qed.

(** C5 on an input that reads confused and a reply that reads happy: the
    reply is labelled confused. *)
Lemma detectMood_labels_from_input_witness :
  Chat.detectMood "Great question!" = Chat.happy
  /\ exists rest,
      Chat.messages (fst (fst (Chat.handleSendMessage (H := Sample.host) Sample.browser_great
                                                       Sample.api (Sample.typed "I am STUCK"))))
        = [Sample.greeting]
            ++ [Chat.userMessage Sample.browser_great "I am STUCK";
                Chat.mkMessage "1700000000001" (JStr "Great question!") Chat.captain
                               (Some Chat.confused) 1700000000000]
            ++ rest.
Proof.
  split; [reflexivity |].
  exact (proj2 (detectMood_labels_from_input (H := Sample.host)) Sample.browser_great Sample.api
               (Sample.typed "I am STUCK")
               [Fetch (Api.chat_request Sample.api (JStr "I am STUCK"))]
               (JStr "Great question!") eq_refl eq_refl).
Defined.

(** C6.  [checkHealth] makes one GET to [backendUrl + "/api/health"] and
    always completes normally: with [null] when the fetch rejects, when the
    status is not ok, or when reading the body as JSON fails, and with the
    parsed body otherwise. *)
Theorem checkHealth_never_throws (net : Network) (self : Api.OmnidimensionAPI) :
  Api.checkHealth net self =
    ([Fetch (mkRequest (Api.backendUrl self +:+ "/api/health") "GET"
                       [("Content-Type", "application/json")] None)],
     Normal (match net (Api.health_request self) with
             | Throw _ => JNull
             | Normal response =>
                 if res_ok response then
                   match res_json response with
                   | Normal healthData => healthData
                   | Throw _ => JNull
                   end
                 else JNull
             end)).
Proof.
  unfold Api.checkHealth, Eff.try_catch, Eff.bind, Eff.fetch, Eff.pure, Eff.ret.
  change (Api.health_request self) with
    (mkRequest (Api.backendUrl self +:+ "/api/health") "GET"
               [("Content-Type", "application/json")] None).
  destruct (net _) as [response | e]; simpl; [| reflexivity].
  destruct (res_ok response); simpl; [| reflexivity].
  destruct (res_json response) as [healthData | e]; simpl; [| reflexivity].
  destruct healthData; reflexivity.
Qed.

(** C7.  The voice settings are persisted under the key
    [captainFocusVoiceSettings]: the initial settings are the defaults
    (voice 0, pitch 1.1, rate 0.9) when the key is absent and the parse of
    the saved text when a non-empty text is saved; the first render stores
    the serialisation of the settings; every action that changes the
    settings leaves the serialisation of the new settings under the key,
    so after any sequence of actions the stored text is that of the current
    settings; and the reset action sets exactly the defaults. *)
Theorem voiceSettings_are_persisted `{Voice.SettingsJSON} :
  (forall storage : gmap string string,
      storage !! "captainFocusVoiceSettings" = None ->
      Voice.initialVoiceSettings storage = Normal (Voice.mkVoiceSettings 0 1.1 0.9))
  /\ (forall (storage : gmap string string) (saved : string),
      storage !! "captainFocusVoiceSettings" = Some saved ->
      saved <> EmptyString ->
      Voice.initialVoiceSettings storage = Voice.JSON_parse saved)
  /\ (forall (storage : gmap string string) (st : Voice.Store),
      Voice.mount storage = Normal st ->
      Voice.initialVoiceSettings storage = Normal (Voice.voiceSettings st)
      /\ Voice.localStorage st !! "captainFocusVoiceSettings"
         = Some (Voice.JSON_stringify (Voice.voiceSettings st)))
  /\ (forall (a : Voice.Action) (st : Voice.Store),
      Voice.voiceSettings (Voice.dispatch a st) <> Voice.voiceSettings st ->
      Voice.localStorage (Voice.dispatch a st) !! "captainFocusVoiceSettings"
        = Some (Voice.JSON_stringify (Voice.voiceSettings (Voice.dispatch a st))))
  /\ (forall (actions : list Voice.Action) (storage : gmap string string) (st : Voice.Store),
      Voice.mount storage = Normal st ->
      Voice.localStorage (Voice.run actions st) !! "captainFocusVoiceSettings"
        = Some (Voice.JSON_stringify (Voice.voiceSettings (Voice.run actions st))))
  /\ (forall st : Voice.Store,
      Voice.voiceSettings (Voice.dispatch Voice.ResetToDefaults st)
        = Voice.mkVoiceSettings 0 1.1 0.9).
Proof.
  split; [| split; [| split; [| split; [| split]]]].
  - intros storage Habsent. unfold Voice.initialVoiceSettings, Voice.storageKey.
    rewrite Habsent. reflexivity.
  - intros storage saved Hsaved Hne. unfold Voice.initialVoiceSettings, Voice.storageKey.
    rewrite Hsaved. destruct saved; [contradiction | reflexivity].
  - intros storage st Hmount. split.
    + unfold Voice.mount in Hmount.
      destruct (Voice.initialVoiceSettings storage); [| discriminate].
      injection Hmount as <-. reflexivity.
    + apply (VoiceFacts.mount_persisted storage st Hmount).
  - intros a st Hchanged.
    destruct (VoiceFacts.dispatch_cases a st) as [Hsame | Hsaved]; [| exact Hsaved].
    rewrite Hsame in Hchanged. contradiction.
  - intros actions storage st Hmount.
    apply VoiceFacts.run_keeps_persisted, (VoiceFacts.mount_persisted storage st Hmount).
  - intros st. reflexivity.
Qed.

(** C7 with an empty storage: the defaults are taken, and a change of the
    pitch to 1.5 is written under the key. *)
Lemma voiceSettings_are_persisted_witness :
  Voice.initialVoiceSettings (H := Sample.codec) ∅ = Normal (Voice.mkVoiceSettings 0 1.1 0.9)
  /\ Voice.localStorage
       (Voice.dispatch (H := Sample.codec) (Voice.ChangePitch 1.5)
                       (Voice.mkStore Voice.defaultVoiceSettings ∅))
     !! "captainFocusVoiceSettings" = Some "other-pitch".
Proof.
  destruct (voiceSettings_are_persisted (H := Sample.codec)) as (Hinit & _ & _ & Hchange & _).
  split.
  - apply Hinit. apply lookup_empty.
  - apply (Hchange (Voice.ChangePitch 1.5) (Voice.mkStore Voice.defaultVoiceSettings ∅)).
    simpl. intros Heq.
    apply (f_equal (fun vs => PrimFloat.eqb (Voice.pitch vs) 1.1)) in Heq.
    vm_compute in Heq. discriminate Heq.
Defined.

(** C9.  When the list is not empty and its last message is not the
    user's, [sendMessage] rejects with the Error "Latest message must be
    from user" and makes no request.  On the empty list the check reads
    [role] of [undefined]: the call rejects with that TypeError, again
    without a request. *)
Theorem sendMessage_requires_user_last `{NumberHost} (net : Network) (self : Api.OmnidimensionAPI) :
  (forall (messages : list Api.ChatMessage) (m : Api.ChatMessage),
      last messages = Some m ->
      Api.role m <> Api.user ->
      Api.sendMessage net self messages
        = ([], Throw (new_Error "Latest message must be from user")))
  /\ Api.sendMessage net self []
     = ([], Throw (mkError TypeError "Cannot read properties of undefined (reading 'role')")).
Proof.
  split.
  - intros messages m Hlast Hrole.
    apply (ApiFacts.sendMessage_not_user net self messages m Hlast).
    destruct (Api.role m); [reflexivity | contradiction | reflexivity].
  - reflexivity.
Qed.

(** C9 on a list that ends with an assistant message. *)
Lemma sendMessage_requires_user_last_witness :
  Api.sendMessage (H := Sample.host) Sample.net_great Sample.api Sample.question_then_answer
    = ([], Throw (new_Error "Latest message must be from user")).
Proof.
  apply (proj1 (sendMessage_requires_user_last (H := Sample.host) Sample.net_great Sample.api)
               Sample.question_then_answer
               (Api.mkChatMessage Api.assistant
                                  (JStr "A monoid in the category of endofunctors."))).
  - reflexivity.
  - discriminate.
Defined.

(** C10.  When the input text is empty or consists of white space only,
    [handleSendMessage] changes nothing: the state it returns is the state
    it was given (message list, input text, typing flag, API error), no
    request or other event happens, and it completes normally. *)
Theorem handleSendMessage_ignores_blank `{NumberHost} (browser : Chat.Browser)
        (api : Api.OmnidimensionAPI) (st : Chat.ChatState) :
  Spec.blank (Chat.inputText st) ->
  Chat.handleSendMessage browser api st = (st, [], Normal tt).
Proof.
  intros Hblank. apply ChatFacts.handleSendMessage_skips, StrFacts.trim_blank, Hblank.
Qed.

(** C10 on a space followed by a no-break space. *)
Lemma handleSendMessage_ignores_blank_witness :
  Chat.handleSendMessage (H := Sample.host) Sample.browser_great Sample.api
                         (Sample.typed Sample.blank_input)
    = (Sample.typed Sample.blank_input, [], Normal tt).
Proof.
  apply handleSendMessage_ignores_blank. simpl. unfold Sample.blank_input.
  apply Spec.blank_space; [simpl; tauto |].
  apply Spec.blank_space; [simpl; tauto |].
  apply Spec.blank_empty.
Defined.

(* ===================================================================== *)
(** ** Further facts about the API client *)
(* ===================================================================== *)

Module ApiMoreFacts.
Section Facts.
Context `{NumberHost}.
Variable net : Network.
Variable self : Api.OmnidimensionAPI.

(** The [catch] block never completes normally. *)
Lemma catch_throws (e : jserror) : exists e', Api.sendMessage_catch e = ([], Throw e').
Proof. unfold Api.sendMessage_catch. destruct (_ && _); eexists; reflexivity. Qed.

(** An ok response whose body cannot be read as JSON: the error of the
    read is what the [catch] block gets. *)
Lemma sendMessage_parse_fails (messages : list Api.ChatMessage) (s : string)
      (r : Response) (e : jserror) :
  last messages = Some (Api.mkChatMessage Api.user (JStr s)) ->
  net (Api.chat_request self (JStr s)) = Normal r ->
  res_ok r = true ->
  res_json r = Throw e ->
  Api.sendMessage net self messages =
    ([Fetch (Api.chat_request self (JStr s))],
     Throw (if instanceof_TypeError e && Str.includes (err_message e) "fetch"
            then new_Error Api.cannot_connect_message else e)).
Proof.
  intros Hlast Hnet Hok Hjson.
  unfold Api.sendMessage, Api.sendMessage_try; rewrite Hlast; simpl.
  unfold Eff.fetch, Eff.bind, Eff.try_catch, Eff.pure; rewrite Hnet; simpl.
  rewrite Hok, Hjson. simpl.
  unfold Api.sendMessage_catch. destruct (_ && _); reflexivity.
Qed.

End Facts.
End ApiMoreFacts.

(* ===================================================================== *)
(** ** Further facts about the conversation controller *)
(* ===================================================================== *)

Module ChatMoreFacts.
Section Facts.
Context `{NumberHost}.
Variable browser : Chat.Browser.
Variable api : Api.OmnidimensionAPI.

Ltac run_handler Hinput :=
  unfold Chat.handleSendMessage, Chat.bind, Chat.get, Chat.try_catch, Chat.lift,
    Chat.setMessages, Chat.setInputText, Chat.setIsTyping, Chat.setApiError, Chat.modify;
  rewrite Hinput; simpl.

Ltac run_speech :=
  unfold Chat.speakText, Chat.bind, Chat.emit, Chat.pure, Chat.ret,
    Chat.setIsSpeaking, Chat.modify; simpl.

(** What the handler asks of the network: one request carrying the input. *)
Lemma handler_request (st : Chat.ChatState) :
  fst (Api.sendMessage (Chat.network browser) api
         (Chat.apiMessages api (Chat.messages st) (Chat.inputText st)))
  = [Fetch (Api.chat_request api (JStr (Chat.inputText st)))].
Proof. apply ApiFacts.sendMessage_user, ChatFacts.apiMessages_last. Qed.

(** The call resolves with a value that is not a string, in a browser
    without speech: nothing reads the value as a string. *)
Lemma handleSendMessage_replied_mute (st : Chat.ChatState) (t : list event) (v : json) :
  Str.is_empty (Str.trim (Chat.inputText st)) = false ->
  Chat.speechSynthesis browser = false ->
  Api.sendMessage (Chat.network browser) api
                  (Chat.apiMessages api (Chat.messages st) (Chat.inputText st))
    = (t, Normal v) ->
  Chat.handleSendMessage browser api st =
    (Chat.mkChatState
       (Chat.messages st
          ++ [Chat.userMessage browser (Chat.inputText st);
              Chat.replyMessage browser v (Chat.detectMood (Chat.inputText st))])
       EmptyString false (Chat.isSpeaking st) None,
     t, Normal tt).
Proof.
  intros Hinput Hmute Hsend. run_handler Hinput. rewrite Hsend. simpl. run_speech.
  rewrite Hmute. simpl. rewrite <- app_assoc, app_nil_r. reflexivity.
Qed.

(** The call resolves with a value [speakText] cannot read as a string, in
    a browser with speech: [text.replace] throws after the reply was
    appended, and the [catch] block runs on top of that. *)
Lemma handleSendMessage_replied_unreadable (st : Chat.ChatState) (t : list event)
      (v : json) (e : jserror) :
  Str.is_empty (Str.trim (Chat.inputText st)) = false ->
  Chat.speechSynthesis browser = true ->
  Js.string_receiver v "text" "replace" = Throw e ->
  Api.sendMessage (Chat.network browser) api
                  (Chat.apiMessages api (Chat.messages st) (Chat.inputText st))
    = (t, Normal v) ->
  Chat.handleSendMessage browser api st =
    (Chat.mkChatState
       (Chat.messages st
          ++ [Chat.userMessage browser (Chat.inputText st);
              Chat.replyMessage browser v (Chat.detectMood (Chat.inputText st));
              Chat.fallbackMessage browser])
       EmptyString false true (Some (err_message e)),
     t ++ [SpeechCancel; SpeechCancel; SpeechSpeak Chat.fallbackResponse],
     Normal tt).
Proof.
  intros Hinput Hspeech Hread Hsend. run_handler Hinput. rewrite Hsend. simpl. run_speech.
  rewrite Hspeech. simpl. rewrite Hread. simpl.
  rewrite ChatFacts.instanceof_Error_always. simpl.
  rewrite <- !app_assoc. reflexivity.
Qed.

Lemma string_receiver_cases (v : json) (expr method : string) :
  (exists s, v = JStr s /\ Js.string_receiver v expr method = Normal s)
  \/ (exists e, Js.string_receiver v expr method = Throw e).
Proof. destruct v; simpl; eauto. Qed.

(** Every run on an input that is not blank. *)
Lemma handleSendMessage_shape (st : Chat.ChatState) :
  Str.is_empty (Str.trim (Chat.inputText st)) = false ->
  exists st' speech captains,
    Chat.handleSendMessage browser api st =
      (st', Fetch (Api.chat_request api (JStr (Chat.inputText st))) :: speech, Normal tt)
    /\ Trace.requests speech = []
    /\ Chat.messages st' =
         Chat.messages st ++ Chat.userMessage browser (Chat.inputText st) :: captains
    /\ (captains = [Chat.fallbackMessage browser]
        \/ exists v,
            captains = [Chat.replyMessage browser v (Chat.detectMood (Chat.inputText st))]
            \/ captains = [Chat.replyMessage browser v (Chat.detectMood (Chat.inputText st));
                           Chat.fallbackMessage browser])
    /\ Chat.inputText st' = EmptyString
    /\ Chat.isTyping st' = false.
Proof.
  intros Hinput.
  pose proof (handler_request st) as Htrace.
  destruct (Api.sendMessage (Chat.network browser) api
              (Chat.apiMessages api (Chat.messages st) (Chat.inputText st)))
    as [t [v | e]] eqn:Hsend; simpl in Htrace; subst t.
  - destruct (Chat.speechSynthesis browser) eqn:Hspeech.
    + destruct (string_receiver_cases v "text" "replace") as [(s & -> & _) | (e & Hread)].
      * rewrite (ChatFacts.handleSendMessage_replied browser api st _ s Hinput Hsend), Hspeech.
        do 3 eexists. split; [reflexivity |]. simpl.
        repeat split; eauto.
      * rewrite (handleSendMessage_replied_unreadable st _ v e Hinput Hspeech Hread Hsend).
        do 3 eexists. split; [reflexivity |]. simpl.
        repeat split; eauto.
    + rewrite (handleSendMessage_replied_mute st _ v Hinput Hspeech Hsend).
      do 3 eexists. split; [reflexivity |]. simpl.
      repeat split; eauto.
  - rewrite (ChatFacts.handleSendMessage_rejected browser api st _ e Hinput Hsend).
    destruct (Chat.speechSynthesis browser); do 3 eexists;
      (split; [reflexivity |]); simpl; repeat split; eauto.
Qed.

End Facts.
End ChatMoreFacts.

(* ===================================================================== *)
(** ** Facts about mood detection under rewriting of the text *)
(* ===================================================================== *)

Module MoodFacts.

Lemma canonicalize_idempotent (c : ascii) :
  Str.canonicalize (Str.canonicalize c) = Str.canonicalize c.
Proof. destruct c as [[] [] [] [] [] [] [] []]; reflexivity. Qed.

Lemma starts_with_fold_case (pat s : string) :
  Str.starts_with Str.eq_ignore_case pat (Spec.fold_case s)
  = Str.starts_with Str.eq_ignore_case pat s.
Proof.
  revert s. induction pat as [|p pat IH]; intros [|c s]; simpl; try reflexivity.
  rewrite IH. unfold Str.eq_ignore_case. rewrite canonicalize_idempotent. reflexivity.
Qed.

Lemma alt_here_fold_case (alts : list string) (s : string) :
  Str.alt_here Str.eq_ignore_case alts (Spec.fold_case s)
  = Str.alt_here Str.eq_ignore_case alts s.
Proof.
  unfold Str.alt_here. induction alts as [|kw alts IH]; simpl; [reflexivity |].
  rewrite IH, starts_with_fold_case. reflexivity.
Qed.

(** The pattern test sees a text only through its case-folded form. *)
Lemma regex_test_i_fold_case (alts : list string) (s : string) :
  Str.regex_test_i alts (Spec.fold_case s) = Str.regex_test_i alts s.
Proof.
  unfold Str.regex_test_i. induction s as [|c s IH].
  - reflexivity.
  - change (Spec.fold_case (String c s))
      with (String (Str.canonicalize c) (Spec.fold_case s)).
    change (Str.search Str.eq_ignore_case alts (String (Str.canonicalize c) (Spec.fold_case s)))
      with (Str.alt_here Str.eq_ignore_case alts (Spec.fold_case (String c s))
            || Str.search Str.eq_ignore_case alts (Spec.fold_case s)).
    rewrite alt_here_fold_case, IH. reflexivity.
Qed.

Lemma detectMood_fold_case (s : string) :
  Chat.detectMood (Spec.fold_case s) = Chat.detectMood s.
Proof. unfold Chat.detectMood. rewrite !regex_test_i_fold_case. reflexivity. Qed.

(** A keyword found in a text is found in every text around it. *)
Lemma mentions_in_context (words : list string) (pre s post : string) :
  Spec.mentions words s -> Spec.mentions words (pre +:+ s +:+ post).
Proof.
  intros (kw & Hin & a & mid & b & -> & Hf).
  exists kw. split; [assumption |].
  exists (pre +:+ a), mid, (b +:+ post). split; [| assumption].
  rewrite !StrFacts.append_assoc. reflexivity.
Qed.

Lemma regex_test_i_in_context (words : list string) (pre s post : string) :
  Str.regex_test_i words s = true -> Str.regex_test_i words (pre +:+ s +:+ post) = true.
Proof.
  rewrite !StrFacts.regex_test_i_mentions. apply mentions_in_context.
Qed.

End MoodFacts.

(* ===================================================================== *)
(** ** Facts about the connection check *)
(* ===================================================================== *)

Module ConnectionFacts.
Section Facts.
Variable net : Network.
Variable api : Api.OmnidimensionAPI.

Lemma checkHealth_value :
  Api.checkHealth net api = ([Fetch (Api.health_request api)], Normal (Reading.health_value net api)).
Proof.
  unfold Api.checkHealth, Reading.health_value, Eff.try_catch, Eff.bind, Eff.fetch, Eff.pure,
    Eff.ret.
  destruct (net _) as [response | e]; simpl; [| reflexivity].
  destruct (res_ok response); simpl; [| reflexivity].
  destruct (res_json response) as [healthData | e]; simpl; [| reflexivity].
  destruct healthData; reflexivity.
Qed.

Lemma truthy_get_prop (name : string) (v : json) :
  Js.truthy v = true -> Js.get_prop v name = Normal (Spec.field name v).
Proof. destruct v; simpl; congruence. Qed.

Ltac run_check :=
  unfold Connection.checkConnection, Connection.key_is_missing;
  unfold Connection.try_catch, Connection.bind, Connection.lift,
    Connection.setConnectionStatus, Connection.setApiError, Connection.pure, Connection.ret;
  rewrite checkHealth_value; simpl.

(** The whole run, from the value the health check ends with. *)
Lemma checkConnection_run (st : Connection.State) :
  Connection.checkConnection net api st =
    (let health := Reading.health_value net api in
     if Js.truthy health then
       Connection.mkState Connection.connected
         (match Reading.health_complaint health with
          | Some text => Some text
          | None => Connection.apiError st
          end)
     else Connection.mkState Connection.error (Some Connection.health_failed_message),
     [Fetch (Api.health_request api)],
     Normal tt).
Proof.
  run_check. cbv zeta.
  destruct (Js.truthy (Reading.health_value net api)) eqn:Htruthy; simpl; [| reflexivity].
  unfold Reading.health_complaint, Reading.lacks_api_key.
  rewrite (truthy_get_prop "environment" _ Htruthy). simpl.
  destruct (Spec.field "environment" (Reading.health_value net api)) as [env |]; simpl.
  - destruct (Js.truthy env) eqn:Henv; simpl.
    + rewrite (truthy_get_prop "hasApiKey" _ Henv). simpl.
      destruct (Js.truthy_opt (Spec.field "hasApiKey" env)); simpl; [| reflexivity].
      rewrite (truthy_get_prop "omnidimensionApiHealth" _ Htruthy). simpl.
      destruct (Js.truthy_opt _); reflexivity.
    + rewrite (truthy_get_prop "omnidimensionApiHealth" _ Htruthy). simpl.
      destruct (Js.truthy_opt _); reflexivity.
  - rewrite (truthy_get_prop "omnidimensionApiHealth" _ Htruthy). simpl.
    destruct (Js.truthy_opt _); reflexivity.
Qed.

End Facts.
End ConnectionFacts.

(* ===================================================================== *)
(** ** Further facts about the voice settings *)
(* ===================================================================== *)

Module VoiceMoreFacts.

(** [findIndex] gives the first position that satisfies the test. *)
Lemma findIndex_some (p : string -> bool) (voices : list string) (i : nat) :
  Voice.findIndex p voices = Some i ->
  (exists name, nth_error voices i = Some name /\ p name = true)
  /\ (forall j name, j < i -> nth_error voices j = Some name -> p name = false).
Proof.
  revert i. induction voices as [|v voices IH]; intros i; simpl; [discriminate |].
  destruct (p v) eqn:Hv.
  - intros [= <-]. split; [exists v; auto |]. intros j name Hj. lia.
  - destruct (Voice.findIndex p voices) as [k |]; simpl; [| discriminate].
    intros [= <-]. destruct (IH k eq_refl) as [Hfound Hfirst]. split; [exact Hfound |].
    intros [|j] name Hj; simpl.
    + intros [= <-]. exact Hv.
    + apply Hfirst. lia.
Qed.

Lemma findIndex_none (p : string -> bool) (voices : list string) :
  Voice.findIndex p voices = None -> forall name, In name voices -> p name = false.
Proof.
  induction voices as [|v voices IH]; simpl; [intros _ name [] |].
  destruct (p v) eqn:Hv; [discriminate |].
  destruct (Voice.findIndex p voices); simpl; [discriminate |].
  intros _ name [<- | Hin]; [exact Hv | apply IH; [reflexivity | exact Hin]].
Qed.

Lemma nth_error_in_range {A} (l : list A) (i : nat) (x : A) :
  nth_error l i = Some x -> i < length l.
Proof. intros Hx. apply nth_error_Some. congruence. Qed.

(** The guard of [loadVoices] is false on an empty list of voices. *)
Lemma guard_needs_voices (sel : float) :
  PrimFloat.ltb 0 (Voice.of_nat 0) && (PrimFloat.leb (Voice.of_nat 0) sel || PrimFloat.ltb sel 0)
  = false.
Proof. reflexivity. Qed.

Section Persistence.
Context `{Voice.SettingsJSON}.

(** What [loadVoices] does when its guard holds. *)
Lemma loadVoices_repairs (voices : list string) (st : Voice.Store) :
  PrimFloat.ltb 0 (Voice.of_nat (length voices))
  && (PrimFloat.leb (Voice.of_nat (length voices)) (Voice.selectedVoice (Voice.voiceSettings st))
      || PrimFloat.ltb (Voice.selectedVoice (Voice.voiceSettings st)) 0) = true ->
  Voice.loadVoices voices st =
    Voice.setVoiceSettings
      (fun prev =>
         Voice.mkVoiceSettings
           (match Voice.findIndex Voice.is_female_voice voices with
            | Some i => Voice.of_nat i
            | None => 0%float
            end)
           (Voice.pitch prev) (Voice.rate prev))
      st.
Proof. intros Hguard. unfold Voice.loadVoices. rewrite Hguard. reflexivity. Qed.

(** Mounting again on the storage a persisted store left behind. *)
Lemma mount_restores (st : Voice.Store) :
  Voice.persisted st ->
  Voice.JSON_stringify (Voice.voiceSettings st) <> EmptyString ->
  Voice.JSON_parse (Voice.JSON_stringify (Voice.voiceSettings st))
    = Normal (Voice.voiceSettings st) ->
  Voice.mount (Voice.localStorage st) = Normal st.
Proof.
  intros Hp Hne Hrt. unfold Voice.mount, Voice.initialVoiceSettings.
  unfold Voice.persisted in Hp. rewrite Hp.
  destruct (Voice.JSON_stringify (Voice.voiceSettings st)) eqn:Htext; [contradiction |].
  simpl. rewrite Hrt. unfold Voice.saveEffect. simpl.
  rewrite Htext. destruct st as [vs storage]. simpl in *. f_equal. f_equal.
  apply insert_id. exact Hp.
Qed.

End Persistence.
End VoiceMoreFacts.

(* ===================================================================== *)
(** ** Facts about the keyboard handler *)
(* ===================================================================== *)

Module ControlsFacts.
Section Facts.
Context `{NumberHost}.
Variable browser : Chat.Browser.
Variable api : Api.OmnidimensionAPI.

Lemma handleKeyPress_enter (st : Chat.ChatState) :
  Controls.handleKeyPress browser api (Controls.mkKeyboardEvent "Enter" false) st =
    match Chat.handleSendMessage browser api st with
    | (st', t, _) => (st', t, Normal true)
    end.
Proof. reflexivity. Qed.

Lemma handleKeyPress_other (e : Controls.KeyboardEvent) (st : Chat.ChatState) :
  Controls.key e <> "Enter" \/ Controls.shiftKey e = true ->
  Controls.handleKeyPress browser api e st = (st, [], Normal false).
Proof.
  intros Hother. unfold Controls.handleKeyPress.
  destruct (String.eqb (Controls.key e) "Enter") eqn:Hkey; simpl; [| reflexivity].
  apply String.eqb_eq in Hkey.
  destruct Hother as [Hne | ->]; [contradiction | reflexivity].
Qed.

End Facts.
End ControlsFacts.

(* ===================================================================== *)
(** ** Further properties of the code *)
(* ===================================================================== *)

(** X1 at a reply 500 with an [error] text. *)
Lemma sendMessage_translates_failures_witness :
  snd (Api.sendMessage (H := Sample.host) Sample.net_500 Sample.api Sample.greeting_and_question)
    = Throw (new_Error "Server error: boom").
Proof.
  destruct (sendMessage_translates_failures (H := Sample.host) Sample.net_500 Sample.api
              Sample.greeting_and_question "What is a monad?" eq_refl)
    as (_ & Hstatus & _).
  assert (res_json Sample.reply_500 <> Normal JNull) as Hbody by discriminate.
  destruct (Hstatus Sample.reply_500 eq_refl eq_refl Hbody) as (_ & H500 & _).
  apply (H500 "boom"); reflexivity.
Defined.

(** X2.  [sendMessage] resolves only on success: whenever it resolves with
    a value, the last message was a user message with a string content,
    the response to the request carrying it was ok, its body was JSON with
    a truthy [response] field, and the value is that field. *)
Theorem sendMessage_resolves_only_on_success `{NumberHost} (net : Network)
        (self : Api.OmnidimensionAPI) (messages : list Api.ChatMessage) (v : json) :
  snd (Api.sendMessage net self messages) = Normal v ->
  exists s r data,
    last messages = Some (Api.mkChatMessage Api.user (JStr s))
    /\ net (Api.chat_request self (JStr s)) = Normal r
    /\ res_ok r = true
    /\ res_json r = Normal data
    /\ Spec.field "response" data = Some v
    /\ Js.truthy v = true.
Proof.
  destruct (last messages) as [[r c] |] eqn:Hlast.
  - destruct r;
      try (unfold Api.sendMessage, Api.sendMessage_try; rewrite Hlast; discriminate).
    destruct c;
      try (unfold Api.sendMessage, Api.sendMessage_try; rewrite Hlast; discriminate).
    unfold Api.sendMessage, Api.sendMessage_try. rewrite Hlast. simpl.
    unfold Eff.fetch, Eff.bind, Eff.try_catch, Eff.pure.
    destruct (net _) as [r | e] eqn:Hnet; simpl.
    + destruct (res_ok r) eqn:Hok; simpl.
      * destruct (res_json r) as [data | e] eqn:Hjson; simpl.
        -- destruct data; simpl;
             try (intros Hv; discriminate Hv).
           destruct (Js.lookup_prop "response" props) as [w |] eqn:Hfield; simpl.
           ++ destruct (Js.truthy w) eqn:Htruthy; simpl; [| intros Hv; discriminate Hv].
              intros [= <-]. exists s, r, (JObj props).
              repeat split; first [assumption | reflexivity].
           ++ intros Hv; discriminate Hv.
        -- destruct (ApiMoreFacts.catch_throws e) as [e' ->]. intros Hv; discriminate Hv.
      * destruct (res_json r) as [data | e]; simpl.
        -- destruct (Js.get_prop data "error") as [w | e]; simpl.
           ++ destruct (_ =? 404)%N; [intros Hv; discriminate Hv |].
              destruct (_ =? 500)%N;
                (destruct (Js.ToString _) as [rendered | e]; simpl;
                 [intros Hv; discriminate Hv |];
                 destruct (ApiMoreFacts.catch_throws e) as [e' ->];
                 intros Hv; discriminate Hv).
           ++ destruct (ApiMoreFacts.catch_throws e) as [e' ->]. intros Hv; discriminate Hv.
        -- destruct (_ =? 404)%N; [intros Hv; discriminate Hv |].
           destruct (_ =? 500)%N; intros Hv; discriminate Hv.
    + destruct (ApiMoreFacts.catch_throws e) as [e' ->]. intros Hv; discriminate Hv.
  - unfold Api.sendMessage, Api.sendMessage_try. rewrite Hlast. discriminate.
Qed.

Lemma sendMessage_resolves_only_on_success_witness :
  exists s r data,
    last Sample.greeting_and_question = Some (Api.mkChatMessage Api.user (JStr s))
    /\ Sample.net_great (Api.chat_request Sample.api (JStr s)) = Normal r
    /\ res_ok r = true
    /\ res_json r = Normal data
    /\ Spec.field "response" data = Some (JStr "Great question!")
    /\ Js.truthy (JStr "Great question!") = true.
Proof.
  apply (sendMessage_resolves_only_on_success (H := Sample.host) Sample.net_great Sample.api
           Sample.greeting_and_question (JStr "Great question!")).
  reflexivity.
Defined.

(** X3.  For every list of messages and every network, [sendMessage]
    makes no request at all unless the last message is a user message with
    a string content, and then exactly one: the POST of that content to
    [backendUrl + "/api/chat"].  It never retries and never sends a second
    request. *)
Theorem sendMessage_requests_once (net : Network) `{NumberHost}
        (self : Api.OmnidimensionAPI) (messages : list Api.ChatMessage) :
  fst (Api.sendMessage net self messages) =
    match last messages with
    | Some (Api.mkChatMessage Api.user (JStr s)) =>
        [Fetch (mkRequest (Api.backendUrl self +:+ "/api/chat") "POST"
                          [("Content-Type", "application/json")]
                          (Some (JObj [("message", JStr s)])))]
    | _ => []
    end.
Proof.
  destruct (last messages) as [[r c] |] eqn:Hlast.
  - destruct r;
      try (unfold Api.sendMessage, Api.sendMessage_try; rewrite Hlast; reflexivity).
    destruct c;
      try (unfold Api.sendMessage, Api.sendMessage_try; rewrite Hlast; reflexivity).
    apply ApiFacts.sendMessage_user, Hlast.
  - unfold Api.sendMessage, Api.sendMessage_try. rewrite Hlast. reflexivity.
Qed.

(** X4.  Failures the [catch] block does not translate reach the caller
    unchanged: an error [fetch] rejects with that is not a TypeError
    mentioning "fetch", and likewise the error of reading the body of an ok
    response that is not JSON (so such a reply does not give the
    invalid-response Error). *)
Theorem sendMessage_passes_other_errors_on `{NumberHost} (net : Network)
        (self : Api.OmnidimensionAPI) (messages : list Api.ChatMessage) (s : string)
        (e : jserror) :
  last messages = Some (Api.mkChatMessage Api.user (JStr s)) ->
  instanceof_TypeError e && Str.includes (err_message e) "fetch" = false ->
  (net (Api.chat_request self (JStr s)) = Throw e ->
   snd (Api.sendMessage net self messages) = Throw e)
  /\ (forall r,
        net (Api.chat_request self (JStr s)) = Normal r ->
        res_ok r = true ->
        res_json r = Throw e ->
        snd (Api.sendMessage net self messages) = Throw e).
Proof.
  intros Hlast Hother. split.
  - intros Hnet.
    rewrite (ApiFacts.sendMessage_fetch_fails net self messages s e Hlast Hnet), Hother.
    reflexivity.
  - intros r Hnet Hok Hjson.
    rewrite (ApiMoreFacts.sendMessage_parse_fails net self messages s r e Hlast Hnet Hok Hjson),
      Hother.
    reflexivity.
Qed.

(** X4 on a network error worded "Load failed". *)
Lemma sendMessage_passes_other_errors_on_witness :
  snd (Api.sendMessage (H := Sample.host) Scenario.net_load_failed Sample.api
         Sample.greeting_and_question)
    = Throw (mkError TypeError "Load failed").
Proof.
  apply (proj1 (sendMessage_passes_other_errors_on (H := Sample.host) Scenario.net_load_failed
                  Sample.api Sample.greeting_and_question "What is a monad?"
                  (mkError TypeError "Load failed") eq_refl eq_refl)).
  reflexivity.
Defined.

(** X5.  Every run of [handleSendMessage] on an input that is not blank
    completes normally, whatever the network and the browser do, and makes
    exactly one request, first of all its events: the POST of the input as
    typed (not trimmed).  Afterwards the message list is the list before,
    then the user's message, then one or two captain messages (the reply,
    the fallback, or the reply followed by the fallback); the input is
    empty and the typing flag is off. *)
Theorem handleSendMessage_always_completes `{NumberHost} (browser : Chat.Browser)
        (api : Api.OmnidimensionAPI) (st : Chat.ChatState) :
  Str.is_empty (Str.trim (Chat.inputText st)) = false ->
  exists st' others captains,
    Chat.handleSendMessage browser api st =
      (st', Fetch (Api.chat_request api (JStr (Chat.inputText st))) :: others, Normal tt)
    /\ Trace.requests others = []
    /\ Chat.messages st' =
         Chat.messages st ++ Chat.userMessage browser (Chat.inputText st) :: captains
    /\ (captains = [Chat.fallbackMessage browser]
        \/ exists v,
            captains = [Chat.replyMessage browser v (Chat.detectMood (Chat.inputText st))]
            \/ captains = [Chat.replyMessage browser v (Chat.detectMood (Chat.inputText st));
                           Chat.fallbackMessage browser])
    /\ Chat.inputText st' = EmptyString
    /\ Chat.isTyping st' = false.
Proof. apply ChatMoreFacts.handleSendMessage_shape. Qed.

(** X5 with the server unreachable. *)
Lemma handleSendMessage_always_completes_witness :
  exists st' others captains,
    Chat.handleSendMessage (H := Sample.host) Sample.browser_down Sample.api
                           (Sample.typed " I am stuck ") =
      (st', Fetch (Api.chat_request Sample.api (JStr " I am stuck ")) :: others, Normal tt)
    /\ Trace.requests others = []
    /\ Chat.messages st' =
         [Sample.greeting] ++ Chat.userMessage Sample.browser_down " I am stuck " :: captains
    /\ (captains = [Chat.fallbackMessage Sample.browser_down]
        \/ exists v,
            captains = [Chat.replyMessage Sample.browser_down v Chat.confused]
            \/ captains = [Chat.replyMessage Sample.browser_down v Chat.confused;
                           Chat.fallbackMessage Sample.browser_down])
    /\ Chat.inputText st' = EmptyString
    /\ Chat.isTyping st' = false.
Proof.
  exact (handleSendMessage_always_completes (H := Sample.host) Sample.browser_down Sample.api
           (Sample.typed " I am stuck ") eq_refl).
Defined.

(** X6.  A reply that is a truthy number or boolean, in a browser the
    component runs in: the reply is appended, then [speakText] throws on
    [text.replace], the [catch] block of the handler takes over, and the
    message list ends with the user's message, the reply and the fallback
    message, with the API error set to the message of that TypeError; the
    synthesiser is cancelled twice and speaks the fallback only. *)
Theorem handleSendMessage_unreadable_reply `{NumberHost} (browser : Chat.Browser)
        (api : Api.OmnidimensionAPI) (st : Chat.ChatState) (r : Response) (data v : json) :
  Chat.mounts browser = true ->
  Str.is_empty (Str.trim (Chat.inputText st)) = false ->
  Chat.network browser (Api.chat_request api (JStr (Chat.inputText st))) = Normal r ->
  res_ok r = true ->
  res_json r = Normal data ->
  Spec.field "response" data = Some v ->
  Js.truthy v = true ->
  Reading.number_or_boolean v = true ->
  exists e,
    Js.string_receiver v "text" "replace" = Throw e
    /\ instanceof_TypeError e = true
    /\ Chat.handleSendMessage browser api st =
         (Chat.mkChatState
            (Chat.messages st
               ++ [Chat.userMessage browser (Chat.inputText st);
                   Chat.replyMessage browser v (Chat.detectMood (Chat.inputText st));
                   Chat.fallbackMessage browser])
            EmptyString false true (Some (err_message e)),
          [Fetch (Api.chat_request api (JStr (Chat.inputText st)));
           SpeechCancel; SpeechCancel; SpeechSpeak Chat.fallbackResponse],
          Normal tt).
Proof.
  intros Hmounts Hinput Hnet Hok Hjson Hfield Htruthy Hprimitive.
  pose proof (ApiFacts.sendMessage_success (Chat.network browser) api
                (Chat.apiMessages api (Chat.messages st) (Chat.inputText st))
                (Chat.inputText st) r data v
                (ChatFacts.apiMessages_last api _ _) Hnet Hok Hjson Hfield Htruthy) as Hsend.
  exists (mkError TypeError "text.replace is not a function").
  assert (Js.string_receiver v "text" "replace"
          = Throw (mkError TypeError "text.replace is not a function")) as Hread.
  { destruct v; try discriminate Hprimitive; reflexivity. }
  split; [exact Hread |]. split; [reflexivity |].
  rewrite (ChatMoreFacts.handleSendMessage_replied_unreadable browser api st _ v _
             Hinput Hmounts Hread Hsend).
  reflexivity.
Qed.

(** X6 with a backend that answers [{"response": 42}]. *)
Lemma handleSendMessage_unreadable_reply_witness :
  exists e,
    Js.string_receiver (JNum 42) "text" "replace" = Throw e
    /\ instanceof_TypeError e = true
    /\ Chat.handleSendMessage (H := Sample.host) Scenario.browser_number Sample.api
                              (Sample.typed "What is six times seven?") =
         (Chat.mkChatState
            ([Sample.greeting]
               ++ [Chat.userMessage Scenario.browser_number "What is six times seven?";
                   Chat.replyMessage Scenario.browser_number (JNum 42) Chat.neutral;
                   Chat.fallbackMessage Scenario.browser_number])
            EmptyString false true (Some (err_message e)),
          [Fetch (Api.chat_request Sample.api (JStr "What is six times seven?"));
           SpeechCancel; SpeechCancel; SpeechSpeak Chat.fallbackResponse],
          Normal tt).
Proof.
  exact (handleSendMessage_unreadable_reply (H := Sample.host) Scenario.browser_number Sample.api
           (Sample.typed "What is six times seven?") Scenario.reply_number
           (JObj [("response", JNum 42)]) (JNum 42)
           eq_refl eq_refl eq_refl eq_refl eq_refl eq_refl eq_refl eq_refl).
Defined.

(** X7.  A send answered with a string reply: exactly the user's message
    and the reply are appended, in that order; the input is cleared, the
    typing flag is off, an API error left by an earlier failure is
    removed; and in a browser with speech the reply is spoken after a
    cancel, the speaking flag going on. *)
Theorem handleSendMessage_string_reply `{NumberHost} (browser : Chat.Browser)
        (api : Api.OmnidimensionAPI) (st : Chat.ChatState) (r : Response) (data : json)
        (reply : string) :
  Str.is_empty (Str.trim (Chat.inputText st)) = false ->
  Chat.network browser (Api.chat_request api (JStr (Chat.inputText st))) = Normal r ->
  res_ok r = true ->
  res_json r = Normal data ->
  Spec.field "response" data = Some (JStr reply) ->
  reply <> EmptyString ->
  Chat.handleSendMessage browser api st =
    (Chat.mkChatState
       (Chat.messages st
          ++ [Chat.userMessage browser (Chat.inputText st);
              Chat.replyMessage browser (JStr reply) (Chat.detectMood (Chat.inputText st))])
       EmptyString false
       (if Chat.speechSynthesis browser then true else Chat.isSpeaking st)
       None,
     Fetch (Api.chat_request api (JStr (Chat.inputText st)))
       :: (if Chat.speechSynthesis browser then [SpeechCancel; SpeechSpeak reply] else []),
     Normal tt).
Proof.
  intros Hinput Hnet Hok Hjson Hfield Hne.
  assert (Js.truthy (JStr reply) = true) as Htruthy by (destruct reply; [contradiction | reflexivity]).
  pose proof (ApiFacts.sendMessage_success (Chat.network browser) api
                (Chat.apiMessages api (Chat.messages st) (Chat.inputText st))
                (Chat.inputText st) r data (JStr reply)
                (ChatFacts.apiMessages_last api _ _) Hnet Hok Hjson Hfield Htruthy) as Hsend.
  rewrite (ChatFacts.handleSendMessage_replied browser api st _ reply Hinput Hsend).
  reflexivity.
Qed.

(** X7 after an earlier failure left its banner. *)
Lemma handleSendMessage_string_reply_witness :
  Chat.handleSendMessage (H := Sample.host) Sample.browser_great Sample.api
    (Chat.mkChatState [Sample.greeting] "thanks" false false (Some Api.cannot_connect_message)) =
    (Chat.mkChatState
       [Sample.greeting;
        Chat.userMessage Sample.browser_great "thanks";
        Chat.replyMessage Sample.browser_great (JStr "Great question!") Chat.happy]
       EmptyString false true None,
     [Fetch (Api.chat_request Sample.api (JStr "thanks")); SpeechCancel;
      SpeechSpeak "Great question!"],
     Normal tt).
Proof.
  apply (handleSendMessage_string_reply (H := Sample.host) Sample.browser_great Sample.api
           (Chat.mkChatState [Sample.greeting] "thanks" false false
                             (Some Api.cannot_connect_message))
           Sample.reply_great _ "Great question!" eq_refl eq_refl eq_refl eq_refl eq_refl).
  discriminate.
Defined.

(** X8.  What the controller keeps of a failed request: when the backend
    answers with a status that is not ok (and a body other than the JSON
    value [null]), the API error is the message of the error
    [sendMessage] rejected with: "Backend service not found ..." for 404;
    for another status the prefix "Server error: " (500) or "Backend
    request failed: " followed by the detail, or, where the detail has no
    text, the message of the TypeError of the conversion.  The fallback
    message follows the user's message, and the handler completes
    normally. *)
Theorem handleSendMessage_reports_status `{NumberHost} (browser : Chat.Browser)
        (api : Api.OmnidimensionAPI) (st : Chat.ChatState) (r : Response) :
  Str.is_empty (Str.trim (Chat.inputText st)) = false ->
  Chat.network browser (Api.chat_request api (JStr (Chat.inputText st))) = Normal r ->
  res_ok r = false ->
  res_json r <> Normal JNull ->
  let '(st', _, outcome) := Chat.handleSendMessage browser api st in
  Chat.apiError st' =
    Some (if (res_status r =? 404)%N
          then "Backend service not found. Please check if the server is running."
          else match Spec.detail r with
               | Some text =>
                   (if (res_status r =? 500)%N then "Server error: "
                    else "Backend request failed: ") +:+ text
               | None => err_message Js.cannot_convert
               end)
  /\ Chat.messages st' =
       Chat.messages st
         ++ [Chat.userMessage browser (Chat.inputText st); Chat.fallbackMessage browser]
  /\ outcome = Normal tt.
Proof.
  intros Hinput Hnet Hok Hbody.
  pose proof (ApiFacts.sendMessage_status_error (Chat.network browser) api
                (Chat.apiMessages api (Chat.messages st) (Chat.inputText st))
                (Chat.inputText st) r
                (ChatFacts.apiMessages_last api _ _) Hnet Hok Hbody) as Hsend.
  rewrite (ChatFacts.handleSendMessage_rejected browser api st _ _ Hinput Hsend).
  unfold Spec.status_error.
  destruct (_ =? 404)%N; [repeat split |].
  destruct (Spec.detail r); repeat split.
Qed.

(** X8 on a reply 500 with the error text "boom". *)
Lemma handleSendMessage_reports_status_witness :
  let '(st', _, outcome) :=
    Chat.handleSendMessage (H := Sample.host)
      (Chat.mkBrowser Sample.net_500 true Sample.clock) Sample.api (Sample.typed "hello") in
  Chat.apiError st' = Some "Server error: boom"
  /\ Chat.messages st' =
       [Sample.greeting;
        Chat.userMessage (Chat.mkBrowser Sample.net_500 true Sample.clock) "hello";
        Chat.fallbackMessage (Chat.mkBrowser Sample.net_500 true Sample.clock)]
  /\ outcome = Normal tt.
Proof.
  pose proof (handleSendMessage_reports_status (H := Sample.host)
                (Chat.mkBrowser Sample.net_500 true Sample.clock) Sample.api
                (Sample.typed "hello") Sample.reply_500 eq_refl eq_refl eq_refl) as Hreport.
  destruct (Chat.handleSendMessage _ _ _) as [[st' t] outcome].
  apply Hreport. discriminate.
Defined.

(** X9.  [detectMood] ignores letter case: two texts that differ only in
    the case of the letters a-z get the same label. *)
Theorem detectMood_ignores_case (s1 s2 : string) :
  Spec.fold_case s1 = Spec.fold_case s2 ->
  Chat.detectMood s1 = Chat.detectMood s2.
Proof.
  intros Hfold.
  rewrite <- (MoodFacts.detectMood_fold_case s1), <- (MoodFacts.detectMood_fold_case s2), Hfold.
  reflexivity.
Qed.

Lemma detectMood_ignores_case_witness :
  Chat.detectMood "I Don't Understand" = Chat.detectMood "i don't understand".
Proof. apply detectMood_ignores_case. reflexivity. Defined.

(** X10.  Text around a text never takes a mood away: a text labelled
    tired stays tired inside any longer text, and a text that is not
    neutral is not neutral inside any longer text. *)
Theorem detectMood_in_context (pre s post : string) :
  (Chat.detectMood s = Chat.tired -> Chat.detectMood (pre +:+ s +:+ post) = Chat.tired)
  /\ (Chat.detectMood s <> Chat.neutral -> Chat.detectMood (pre +:+ s +:+ post) <> Chat.neutral).
Proof.
  unfold Chat.detectMood. split.
  - destruct (Str.regex_test_i Chat.tired_words s) eqn:Ht.
    + intros _. now rewrite (MoodFacts.regex_test_i_in_context _ pre s post Ht).
    + destruct (Str.regex_test_i Chat.confused_words s);
        [discriminate | destruct (Str.regex_test_i Chat.happy_words s); discriminate].
  - intros Hmood.
    destruct (Str.regex_test_i Chat.tired_words s) eqn:Ht.
    { now rewrite (MoodFacts.regex_test_i_in_context _ pre s post Ht). }
    destruct (Str.regex_test_i Chat.tired_words (pre +:+ s +:+ post)); [discriminate |].
    destruct (Str.regex_test_i Chat.confused_words s) eqn:Hc.
    { now rewrite (MoodFacts.regex_test_i_in_context _ pre s post Hc). }
    destruct (Str.regex_test_i Chat.confused_words (pre +:+ s +:+ post)); [discriminate |].
    destruct (Str.regex_test_i Chat.happy_words s) eqn:Hh.
    { now rewrite (MoodFacts.regex_test_i_in_context _ pre s post Hh). }
    contradiction.
Qed.

Lemma detectMood_in_context_witness :
  Chat.detectMood ("I feel " +:+ "so sleepy" +:+ " but thanks, good night") = Chat.tired.
Proof.
  apply (proj1 (detectMood_in_context "I feel " "so sleepy" " but thanks, good night")).
  reflexivity.
Defined.

(** X11.  [checkConnection] makes exactly one request, the health GET, and
    completes normally.  It never leaves the status at connecting: the
    status becomes connected exactly when the health check ended with a
    truthy value, and error otherwise, with the text "Backend health check
    failed ...".  Its own [catch] block is never reached: an unreachable
    server also gives "Backend health check failed ...", and the text
    "Cannot connect to backend server ..." is an API error afterwards only
    if it was one before. *)
Theorem checkConnection_settles (net : Network) (api : Api.OmnidimensionAPI)
        (st : Connection.State) :
  let '(st', events, outcome) := Connection.checkConnection net api st in
  events = [Fetch (mkRequest (Api.backendUrl api +:+ "/api/health") "GET"
                             [("Content-Type", "application/json")] None)]
  /\ outcome = Normal tt
  /\ Connection.connectionStatus st' <> Connection.connecting
  /\ (Connection.connectionStatus st' = Connection.connected
      <-> Js.truthy (Reading.health_value net api) = true)
  /\ (Connection.connectionStatus st' = Connection.error ->
      Connection.apiError st' = Some Connection.health_failed_message)
  /\ ((exists e, net (Api.health_request api) = Throw e) ->
      st' = Connection.mkState Connection.error (Some Connection.health_failed_message))
  /\ (Connection.apiError st' = Some Connection.cannot_connect_message ->
      Connection.apiError st = Some Connection.cannot_connect_message).
Proof.
  rewrite ConnectionFacts.checkConnection_run. cbv zeta.
  split; [reflexivity |]. split; [reflexivity |].
  destruct (Js.truthy (Reading.health_value net api)) eqn:Htruthy; simpl.
  - split; [discriminate |]. split; [tauto |]. split; [discriminate |]. split.
    + intros [e He]. unfold Reading.health_value in Htruthy. rewrite He in Htruthy.
      discriminate Htruthy.
    + unfold Reading.health_complaint.
      destruct (Reading.lacks_api_key _); [discriminate |].
      destruct (negb _); [discriminate | tauto].
  - split; [discriminate |]. split; [split; discriminate |]. split; [reflexivity |].
    split; [reflexivity | discriminate].
Qed.

(** X12.  A backend that is up and answers the health check with an object
    whose [environment] is truthy but has no truthy [hasApiKey] (as is any
    reply with just the fields the [BackendHealthResponse] interface
    declares) is shown as connected together with the API error
    "Omnidimension API key not configured ...". *)
Theorem checkConnection_reports_missing_key (net : Network) (api : Api.OmnidimensionAPI)
        (st : Connection.State) (r : Response) (health env : json) :
  net (Api.health_request api) = Normal r ->
  res_ok r = true ->
  res_json r = Normal health ->
  Spec.field "environment" health = Some env ->
  Js.truthy env = true ->
  Js.truthy_opt (Spec.field "hasApiKey" env) = false ->
  fst (fst (Connection.checkConnection net api st)) =
    Connection.mkState Connection.connected (Some Connection.key_missing_message).
Proof.
  intros Hnet Hok Hjson Henv Htruthy Hkey.
  rewrite ConnectionFacts.checkConnection_run. cbv zeta.
  unfold Reading.health_value. rewrite Hnet, Hok, Hjson. simpl.
  assert (Js.truthy health = true) as Hh by (destruct health; try discriminate; reflexivity).
  rewrite Hh. unfold Reading.health_complaint, Reading.lacks_api_key.
  rewrite Henv, Htruthy, Hkey. reflexivity.
Qed.

Lemma checkConnection_reports_missing_key_witness :
  fst (fst (Connection.checkConnection Scenario.net_health_declared Sample.api Scenario.starting)) =
    Connection.mkState Connection.connected (Some Connection.key_missing_message).
Proof.
  apply (checkConnection_reports_missing_key Scenario.net_health_declared Sample.api
           Scenario.starting (mkResponse 200 "OK" (Normal Scenario.health_declared))
           Scenario.health_declared
           (JObj [("nodeEnv", JStr "production"); ("nodeVersion", JStr "v20.0.0");
                  ("port", JNum 3001)]));
    reflexivity.
Defined.

(** X13.  [loadVoices] on a selection its guard finds out of range (there
    are voices, and the selected index is at least their number or
    negative): the new selection is a position inside the list, namely the
    first voice whose name contains female, woman, zira or samantha in any
    letter case, or position 0 when no voice has such a name; pitch and
    rate are kept; and the repaired settings are written to storage. *)
Theorem loadVoices_selects_valid_voice `{Voice.SettingsJSON} (voices : list string)
        (st : Voice.Store) :
  PrimFloat.ltb 0 (Voice.of_nat (length voices))
  && (PrimFloat.leb (Voice.of_nat (length voices)) (Voice.selectedVoice (Voice.voiceSettings st))
      || PrimFloat.ltb (Voice.selectedVoice (Voice.voiceSettings st)) 0) = true ->
  exists i name,
    nth_error voices i = Some name
    /\ i < length voices
    /\ Voice.voiceSettings (Voice.loadVoices voices st) =
         Voice.mkVoiceSettings (Voice.of_nat i)
                               (Voice.pitch (Voice.voiceSettings st))
                               (Voice.rate (Voice.voiceSettings st))
    /\ ((Voice.is_female_voice name = true
         /\ forall j other, j < i -> nth_error voices j = Some other ->
                            Voice.is_female_voice other = false)
        \/ (i = 0 /\ forall other, In other voices -> Voice.is_female_voice other = false))
    /\ Voice.localStorage (Voice.loadVoices voices st) !! "captainFocusVoiceSettings"
       = Some (Voice.JSON_stringify (Voice.voiceSettings (Voice.loadVoices voices st))).
Proof.
  intros Hguard.
  rewrite (VoiceMoreFacts.loadVoices_repairs voices st Hguard).
  destruct (Voice.findIndex Voice.is_female_voice voices) as [i |] eqn:Hfind.
  - destruct (VoiceMoreFacts.findIndex_some _ _ _ Hfind) as [(name & Hnth & Hp) Hfirst].
    exists i, name. split; [exact Hnth |].
    split; [exact (VoiceMoreFacts.nth_error_in_range voices i name Hnth) |].
    split; [reflexivity |]. split; [left; auto |].
    apply VoiceFacts.setVoiceSettings_persisted.
  - destruct voices as [| first rest].
    + rewrite VoiceMoreFacts.guard_needs_voices in Hguard. discriminate Hguard.
    + exists 0, first. split; [reflexivity |]. split; [simpl; lia |].
      split; [reflexivity |].
      split; [right; split; [reflexivity | exact (VoiceMoreFacts.findIndex_none _ _ Hfind)] |].
      apply VoiceFacts.setVoiceSettings_persisted.
Qed.

(** X13 with three voices and the stored selection 7: Zira, at position 1,
    is chosen. *)
Lemma loadVoices_selects_valid_voice_witness :
  exists i name,
    nth_error Scenario.three_voices i = Some name
    /\ i < length Scenario.three_voices
    /\ Voice.voiceSettings (Voice.loadVoices (H := Sample.codec) Scenario.three_voices
                                             Scenario.out_of_range) =
         Voice.mkVoiceSettings (Voice.of_nat i) 1.1 0.9
    /\ ((Voice.is_female_voice name = true
         /\ forall j other, j < i -> nth_error Scenario.three_voices j = Some other ->
                            Voice.is_female_voice other = false)
        \/ (i = 0 /\ forall other, In other Scenario.three_voices ->
                                   Voice.is_female_voice other = false))
    /\ Voice.localStorage (Voice.loadVoices (H := Sample.codec) Scenario.three_voices
                                            Scenario.out_of_range)
       !! "captainFocusVoiceSettings"
       = Some (Voice.JSON_stringify (SettingsJSON := Sample.codec)
                 (Voice.voiceSettings (Voice.loadVoices (H := Sample.codec) Scenario.three_voices
                                                        Scenario.out_of_range))).
Proof.
  exact (loadVoices_selects_valid_voice (H := Sample.codec) Scenario.three_voices
           Scenario.out_of_range eq_refl).
Defined.

(** X14.  The settings survive a reload.  After the first render and any
    sequence of settings actions, mounting the component again on the
    storage left behind gives back the same settings and leaves the storage
    as it is, provided the serialisation of the settings is not the empty
    text and parses back to them. *)
Theorem settings_survive_reload `{Voice.SettingsJSON} (storage : gmap string string)
        (first : Voice.Store) (actions : list Voice.Action) :
  Voice.mount storage = Normal first ->
  let last_state := Voice.run actions first in
  Voice.JSON_stringify (Voice.voiceSettings last_state) <> EmptyString ->
  Voice.JSON_parse (Voice.JSON_stringify (Voice.voiceSettings last_state))
    = Normal (Voice.voiceSettings last_state) ->
  Voice.mount (Voice.localStorage last_state) = Normal last_state.
Proof.
  intros Hmount last_state Hne Hrt.
  apply VoiceMoreFacts.mount_restores; [| exact Hne | exact Hrt].
  apply VoiceFacts.run_keeps_persisted, (VoiceFacts.mount_persisted storage first Hmount).
Qed.

(** X14 from an empty storage, after changing pitch and rate. *)
Lemma settings_survive_reload_witness :
  Voice.mount (H := Sample.codec)
    (Voice.localStorage
       (Voice.run (H := Sample.codec) [Voice.ChangePitch 1.5; Voice.ChangeRate 1]
                  (Voice.mkStore Voice.defaultVoiceSettings
                                 (<["captainFocusVoiceSettings" := "default-pitch"]> ∅))))
  = Normal (Voice.run (H := Sample.codec) [Voice.ChangePitch 1.5; Voice.ChangeRate 1]
                      (Voice.mkStore Voice.defaultVoiceSettings
                                     (<["captainFocusVoiceSettings" := "default-pitch"]> ∅))).
Proof.
  apply (settings_survive_reload (H := Sample.codec) ∅
           (Voice.mkStore Voice.defaultVoiceSettings
                          (<["captainFocusVoiceSettings" := "default-pitch"]> ∅))
           [Voice.ChangePitch 1.5; Voice.ChangeRate 1]).
  - reflexivity.
  - discriminate.
  - reflexivity.
Defined.

(** X15.  The Enter key is not held back by the guard of the send button.
    While a request is in flight (typing flag on) the button is disabled,
    yet Enter without Shift on an input that is not blank runs the send
    handler again: the default is prevented and a second request goes
    out.  Any other key, and Enter with Shift, changes nothing and sends
    nothing. *)
Theorem handleKeyPress_sends_while_typing `{NumberHost} (browser : Chat.Browser)
        (api : Api.OmnidimensionAPI) (st : Chat.ChatState) (isListening : bool) :
  Str.is_empty (Str.trim (Chat.inputText st)) = false ->
  Chat.isTyping st = true ->
  Controls.sendDisabled st isListening = true
  /\ (exists st' others,
        Controls.handleKeyPress browser api (Controls.mkKeyboardEvent "Enter" false) st =
          (st', Fetch (Api.chat_request api (JStr (Chat.inputText st))) :: others, Normal true))
  /\ (forall e, Controls.key e <> "Enter" \/ Controls.shiftKey e = true ->
                Controls.handleKeyPress browser api e st = (st, [], Normal false)).
Proof.
  intros Hinput Htyping. split; [| split].
  - unfold Controls.sendDisabled. rewrite Htyping. apply orb_true_r.
  - rewrite ControlsFacts.handleKeyPress_enter.
    destruct (ChatMoreFacts.handleSendMessage_shape browser api st Hinput)
      as (st' & others & captains & -> & _).
    exists st', others. reflexivity.
  - intros e He. apply ControlsFacts.handleKeyPress_other, He.
Qed.

Lemma handleKeyPress_sends_while_typing_witness :
  Controls.sendDisabled Scenario.typing_more false = true
  /\ (exists st' others,
        Controls.handleKeyPress (H := Sample.host) Sample.browser_great Sample.api
                                (Controls.mkKeyboardEvent "Enter" false) Scenario.typing_more =
          (st', Fetch (Api.chat_request Sample.api (JStr "and another thing")) :: others,
           Normal true))
  /\ (forall e, Controls.key e <> "Enter" \/ Controls.shiftKey e = true ->
                Controls.handleKeyPress (H := Sample.host) Sample.browser_great Sample.api e
                                        Scenario.typing_more
                = (Scenario.typing_more, [], Normal false)).
Proof.
  exact (handleKeyPress_sends_while_typing (H := Sample.host) Sample.browser_great Sample.api
           Scenario.typing_more false eq_refl eq_refl).
Defined.
